(** * Xepor: route registry, host resolution and event dispatch

    A shallow embedding of [src/xepor/xepor.py] (class [InterceptedAPI]) and
    the properties of its specification.

    The Python methods mutate two objects: the [HTTPFlow] handed over by
    mitmproxy and the logger [self._log].  Both live in a [World]; a method
    is a function from a world to a world and a [Completion], which is
    either a normal return or a raised exception.  An exception keeps the
    world as it was when it was raised: nothing is rolled back.

    What the source imports from other packages (mitmproxy, urllib, parse)
    is collected in the class [Collaborators]; the embedding and its theorems
    are generic in it. *)

From Stdlib Require Import String Ascii List ZArith Bool Lia.
Import ListNotations.

Local Open Scope string_scope.
Local Open Scope list_scope.

(** ** Python values the source relies on *)

(** Exception classes that occur in the source or in the calls it makes.
    [BaseExceptionOnly] stands for the classes that derive from
    [BaseException] but not from [Exception] (KeyboardInterrupt, SystemExit):
    an [except Exception] clause does not catch them. *)
Inductive ExcClass : Type :=
| KeyError
| ValueError
| AttributeError
| PatternError
| OtherException (name : string)
| BaseExceptionOnly (name : string).

Record PyExc : Type := mkExc {
  exc_class : ExcClass;
  exc_str : string            (* str(e) *)
}.

Definition isinstance_Exception (e : PyExc) : bool :=
  match exc_class e with
  | BaseExceptionOnly _ => false
  | _ => true
  end.

Inductive Completion (A : Type) : Type :=
| Normal (a : A)
| Raise (e : PyExc).
Arguments Normal {A} a.
Arguments Raise {A} e.

(** [x or y] on an optional string: [None] and the empty string are falsy. *)
Definition str_or (x y : option string) : option string :=
  match x with
  | Some s => if String.eqb s "" then y else Some s
  | None => y
  end.

(** [x or y] on an optional integer: [None] and [0] are falsy. *)
Definition int_or (x y : option Z) : option Z :=
  match x with
  | Some n => if Z.eqb n 0 then y else Some n
  | None => y
  end.

Definition int_or_else (x : option Z) (d : Z) : Z :=
  match int_or x None with
  | Some n => n
  | None => d
  end.

(** [h != host] between an [Optional[str]] and a string or [None]. *)
Definition opt_str_eqb (a b : option string) : bool :=
  match a, b with
  | Some x, Some y => String.eqb x y
  | None, None => true
  | _, _ => false
  end.

(** [x in l] for a list of strings. *)
Fixpoint str_in (x : string) (l : list string) : bool :=
  match l with
  | [] => false
  | y :: l' => if String.eqb x y then true else str_in x l'
  end.

(** [flow.metadata.get(key) is True] *)
Definition is_True (v : option bool) : bool :=
  match v with
  | Some true => true
  | _ => false
  end.

(** ** The enumerations of the source *)

Inductive RouteType : Type :=
| REQUEST
| RESPONSE.

(** An argument in the place of a route type: a member of [RouteType], or
    any other Python value (the source guards against it with ValueError). *)
Inductive RouteTypeArg : Type :=
| Rt (t : RouteType)
| NotARouteType (repr : string).

(** ** Objects of the collaborators *)

(** [urllib.parse.ParseResult] *)
Module urllib.
Record ParseResult : Type := mkParseResult {
  scheme : string;
  netloc : string;
  path : string;
  params : string;
  query : string;
  fragment : string
}.
End urllib.

(** [parse.Result]: the positional and the named captures of a match.
    The dict [named] is kept as the list of its items, in insertion order. *)
Module parse.
Record Result : Type := mkResult {
  fixed : list string;
  named : list (string * string)
}.
End parse.

(** [mitmproxy.http.Response], by the three arguments of [Response.make]. *)
Module Response.
Record t : Type := mk {
  status_code : Z;
  content : string;
  headers : list (string * string)
}.
Definition make (status_code : Z) (content : string)
    (headers : list (string * string)) : t :=
  mk status_code content headers.
End Response.

(** [mitmproxy.http.Request], by the attributes the source reads or writes.
    [set_scheme], [set_host], [set_port] and [set_headers] write one field
    and nothing else.  The assignments [request.host = v] and
    [request.port = v] of the source go through mitmproxy's property
    setters, which do more than that: see [assign_host] and [assign_port]
    below. *)
Module Request.
Record t : Type := mk {
  method : string;
  path : string;
  host : string;
  port : Z;
  scheme : string;
  headers : list (string * string)
}.
Definition set_scheme (v : string) (r : t) : t :=
  mk (method r) (path r) (host r) (port r) v (headers r).
Definition set_host (v : string) (r : t) : t :=
  mk (method r) (path r) v (port r) (scheme r) (headers r).
Definition set_port (v : Z) (r : t) : t :=
  mk (method r) (path r) (host r) v (scheme r) (headers r).
Definition set_headers (v : list (string * string)) (r : t) : t :=
  mk (method r) (path r) (host r) (port r) (scheme r) v.
End Request.

(** [mitmproxy.connection.Server], by its address. *)
Record Server : Type := mkServer {
  address : option (string * Z)
}.

(** [flow.metadata], restricted to the four keys of [FlowMeta].  A key that
    is absent from the dict is [None]. *)
Module FlowMeta.
Record dict : Type := mk {
  REQ_PASSTHROUGH : option bool;
  RESP_PASSTHROUGH : option bool;
  REQ_URLPARSE : option urllib.ParseResult;
  REQ_HOST : option (string * Z)
}.
Definition empty : dict := mk None None None None.
Definition set_REQ_PASSTHROUGH (v : bool) (d : dict) : dict :=
  mk (Some v) (RESP_PASSTHROUGH d) (REQ_URLPARSE d) (REQ_HOST d).
Definition set_RESP_PASSTHROUGH (v : bool) (d : dict) : dict :=
  mk (REQ_PASSTHROUGH d) (Some v) (REQ_URLPARSE d) (REQ_HOST d).
Definition set_REQ_URLPARSE (v : urllib.ParseResult) (d : dict) : dict :=
  mk (REQ_PASSTHROUGH d) (RESP_PASSTHROUGH d) (Some v) (REQ_HOST d).
Definition set_REQ_HOST (v : string * Z) (d : dict) : dict :=
  mk (REQ_PASSTHROUGH d) (RESP_PASSTHROUGH d) (REQ_URLPARSE d) (Some v).
End FlowMeta.

(** [mitmproxy.http.HTTPFlow] *)
Module HTTPFlow.
Record t : Type := mk {
  request : Request.t;
  response : option Response.t;
  server_conn : Server;
  metadata : FlowMeta.dict
}.
Definition set_request (v : Request.t) (f : t) : t :=
  mk v (response f) (server_conn f) (metadata f).
Definition set_response (v : option Response.t) (f : t) : t :=
  mk (request f) v (server_conn f) (metadata f).
Definition set_server_conn (v : Server) (f : t) : t :=
  mk (request f) (response f) v (metadata f).
Definition set_metadata (v : FlowMeta.dict) (f : t) : t :=
  mk (request f) (response f) (server_conn f) v.
End HTTPFlow.

(** ** The logger *)

Inductive Level : Type := DEBUG | INFO | WARNING | ERROR.

(** An argument of a log call: a string, an integer, or an object that is
    only formatted (a flow, a parse result, a traceback). *)
Inductive LogArg : Type :=
| LStr (s : string)
| LInt (n : Z)
| LObj.

Record LogRecord : Type := mkLog {
  levelno : Level;
  msg : string;
  args : list LogArg
}.

(** ** Worlds and the monad of the methods *)

Record World : Type := mkWorld {
  flow : HTTPFlow.t;
  log : list LogRecord
}.

Definition M (A : Type) : Type := World -> World * Completion A.

Definition ret {A} (a : A) : M A := fun w => (w, Normal a).

Definition raise {A} (e : PyExc) : M A := fun w => (w, Raise e).

Definition bind {A B} (m : M A) (k : A -> M B) : M B :=
  fun w =>
    match m w with
    | (w', Normal a) => k a w'
    | (w', Raise e) => (w', Raise e)
    end.

Declare Scope py_scope.
Delimit Scope py_scope with py.
Notation "x <- m ;; k" := (bind m (fun x => k))
  (at level 100, m at next level, right associativity) : py_scope.
Notation "' p <- m ;; k" := (bind m (fun x => let p := x in k))
  (at level 100, p pattern, m at next level, right associativity) : py_scope.
Notation "m ;; k" := (bind m (fun _ => k))
  (at level 100, right associativity) : py_scope.
Local Open Scope py_scope.

Definition get_flow : M HTTPFlow.t := fun w => (w, Normal (flow w)).

Definition modify_flow (f : HTTPFlow.t -> HTTPFlow.t) : M unit :=
  fun w => (mkWorld (f (flow w)) (log w), Normal tt).

Definition modify_request (f : Request.t -> Request.t) : M unit :=
  modify_flow (fun fl => HTTPFlow.set_request (f (HTTPFlow.request fl)) fl).

Definition modify_metadata (f : FlowMeta.dict -> FlowMeta.dict) : M unit :=
  modify_flow (fun fl => HTTPFlow.set_metadata (f (HTTPFlow.metadata fl)) fl).

(** [self._log.<level>(msg, *args)] *)
Definition log_call (l : Level) (m : string) (a : list LogArg) : M unit :=
  fun w => (mkWorld (flow w) (log w ++ [mkLog l m a]), Normal tt).

(** A call that returns a value or raises, without touching the world. *)
Definition lift {A} (c : Completion A) : M A := fun w => (w, c).

(** [try: m except Exception as e: h e]; other exceptions propagate. *)
Definition try_except_Exception {A} (m : M A) (h : PyExc -> M A) : M A :=
  fun w =>
    match m w with
    | (w', Normal a) => (w', Normal a)
    | (w', Raise e) =>
        if isinstance_Exception e then h e w' else (w', Raise e)
    end.

(** A view function, and a registered handler: called as
    [handler(flow, *params.fixed, **params.named)], it works on the flow in
    place; what it returns is dropped by the dispatch. *)
Definition Handler : Type := list string -> list (string * string) -> M unit.

(** ** Collaborators *)

(** What the source calls in other packages:
    - [parse.Parser(path)] and [parser.parse(path)];
    - [urllib.parse.urlparse];
    - [mitmproxy.net.http.url.parse_authority(_, check=False)] and
      [url.default_port];
    - the properties [pretty_host] and [pretty_url] of a request and the
      lookup [headers[name]], which raises KeyError on a missing name;
    - [int] on a string, which raises ValueError;
    - the setters of [request.host] and [request.port]: after the write of
      the field they bring an existing [Host] header in line with the new
      value.  [host_setter_headers r] and [port_setter_headers r] are the
      headers they leave, for the request [r] with the field written. *)
Class Collaborators : Type := {
  Parser : Type;
  Parser_new : string -> Completion Parser;
  Parser_parse : Parser -> string -> option parse.Result;
  urlparse : string -> Completion urllib.ParseResult;
  parse_authority : string -> string * option Z;
  default_port : string -> option Z;
  pretty_host : Request.t -> string;
  Headers_get : list (string * string) -> string -> option string;
  int_of_str : string -> option Z;
  host_setter_headers : Request.t -> list (string * string);
  port_setter_headers : Request.t -> list (string * string)
}.

(** A source of a host mapping rule: a string, a compiled regular expression
    (by its [match] on a host), or any other value. *)
Inductive HostSource : Type :=
| SrcStr (s : string)
| SrcPattern (re_match : string -> bool)
| SrcOther.

(** ** The class [InterceptedAPI] *)

Module InterceptedAPI.
Section Methods.
Context {C : Collaborators}.

(** An entry of [request_routes] or [response_routes]:
    [(host, Parser(path), handler)]. *)
Definition Route : Type := option string * Parser * Handler.

Record t : Type := mk {
  default_host : option string;
  host_mapping : list (HostSource * string);
  request_routes : list Route;
  response_routes : list Route;
  blacklist_domain : list string;
  request_passthrough : bool;
  response_passthrough : bool;
  respect_proxy_headers : bool
}.

(** [__init__]: the route lists start empty. *)
Definition init (default_host : option string)
    (host_mapping : option (list (HostSource * string)))
    (blacklist_domain : option (list string))
    (request_passthrough response_passthrough respect_proxy_headers : bool)
    : t :=
  let host_mapping :=
    match host_mapping with None => [] | Some m => m end in
  let blacklist_domain :=
    match blacklist_domain with None => [] | Some b => b end in
  mk default_host host_mapping [] [] blacklist_domain
     request_passthrough response_passthrough respect_proxy_headers.

Definition append_request_route (r : Route) (self : t) : t :=
  mk (default_host self) (host_mapping self)
     (request_routes self ++ [r]) (response_routes self)
     (blacklist_domain self) (request_passthrough self)
     (response_passthrough self) (respect_proxy_headers self).

Definition append_response_route (r : Route) (self : t) : t :=
  mk (default_host self) (host_mapping self)
     (request_routes self) (response_routes self ++ [r])
     (blacklist_domain self) (request_passthrough self)
     (response_passthrough self) (respect_proxy_headers self).

(** [flow.request.headers[name]] *)
Definition headers_getitem (name : string) : M string :=
  fl <- get_flow ;;
  match Headers_get (Request.headers (HTTPFlow.request fl)) name with
  | Some v => ret v
  | None => raise (mkExc KeyError name)
  end.

(** [int(s)] *)
Definition int (s : string) : M Z :=
  match int_of_str s with
  | Some n => ret n
  | None => raise (mkExc ValueError "invalid literal for int()")
  end.

(** [flow.metadata[FlowMeta.REQ_HOST]] *)
Definition metadata_getitem_REQ_HOST : M (string * Z) :=
  fl <- get_flow ;;
  match FlowMeta.REQ_HOST (HTTPFlow.metadata fl) with
  | Some hp => ret hp
  | None => raise (mkExc KeyError "FlowMeta.REQ_HOST")
  end.

(** [get_host] (lines 355-379) *)
Definition get_host (self : t) : M (string * Z) :=
  fl <- get_flow ;;
  (match FlowMeta.REQ_HOST (HTTPFlow.metadata fl) with
   | None =>
       hp <- (if respect_proxy_headers self then
                host <- headers_getitem "X-Forwarded-Host" ;;
                p <- headers_getitem "X-Forwarded-Port" ;;
                port <- int p ;;
                ret (host, port)
              else
                let '(host, port) :=
                  parse_authority (pretty_host (HTTPFlow.request fl)) in
                let port :=
                  int_or_else
                    (int_or port
                       (default_port (Request.scheme (HTTPFlow.request fl))))
                    80 in
                ret (host, port)) ;;
       modify_metadata (FlowMeta.set_REQ_HOST hp)
   | Some _ => ret tt
   end) ;;
  metadata_getitem_REQ_HOST.

(** [request.host = v]: the field, then the headers as the setter of
    mitmproxy leaves them. *)
Definition assign_host (v : string) (r : Request.t) : Request.t :=
  let r' := Request.set_host v r in
  Request.set_headers (host_setter_headers r') r'.

(** [request.port = v] *)
Definition assign_port (v : Z) (r : Request.t) : Request.t :=
  let r' := Request.set_port v r in
  Request.set_headers (port_setter_headers r') r'.

(** The test of one rule of the host mapping (lines 334-336). *)
Definition src_matches (src : HostSource) (host : string) : bool :=
  match src with
  | SrcPattern re_match => re_match host
  | SrcStr s => String.eqb host s
  | SrcOther => false
  end.

(** The loop of [remap_host] (lines 333-353), for a host and port already
    resolved. *)
Fixpoint remap_host_loop (self : t) (overwrite : bool) (host : string)
    (port : Z) (mapping : list (HostSource * string)) : M string :=
  match mapping with
  | [] => ret host
  | (src, dest) :: mapping' =>
      if src_matches src host then
        fl <- get_flow ;;
        (if overwrite &&
              (negb (String.eqb (Request.host (HTTPFlow.request fl)) dest)
               || negb (Z.eqb (Request.port (HTTPFlow.request fl)) port))
         then
           (if respect_proxy_headers self then
              s <- headers_getitem "X-Forwarded-Proto" ;;
              modify_request (Request.set_scheme s)
            else ret tt) ;;
           modify_flow (HTTPFlow.set_server_conn (mkServer (Some (dest, port)))) ;;
           modify_request (assign_host dest) ;;
           modify_request (assign_port port)
         else ret tt) ;;
        log_call DEBUG "flow: %s, remapping host: %s -> %s, port: %d"
          [LObj; LStr host; LStr dest; LInt port] ;;
        ret dest
      else remap_host_loop self overwrite host port mapping'
  end.

(** [remap_host] (lines 319-353) *)
Definition remap_host (self : t) (overwrite : bool) : M string :=
  ' (host, port) <- get_host self ;;
  remap_host_loop self overwrite host port (host_mapping self).

(** [default_response] (line 395) *)
Definition default_response (self : t) : Response.t :=
  Response.make 404 "Not Found" [("X-Intercepted-By", "xepor")].

(** [error_response] (line 408) *)
Definition error_response (self : t) (msg : string) : Response.t :=
  Response.make 502 msg [].

(** The loop of [find_handler] (lines 431-439). *)
Fixpoint find_handler_loop (host : option string) (path : string)
    (routes : list Route) : M (option (Handler * parse.Result)) :=
  match routes with
  | [] => ret None
  | (h, parser, handler) :: routes' =>
      if negb (opt_str_eqb h host) then find_handler_loop host path routes'
      else
        let parse_result := Parser_parse parser path in
        log_call DEBUG "Parse %s => %s" [LStr path; LObj] ;;
        match parse_result with
        | Some r => ret (Some (handler, r))
        | None => find_handler_loop host path routes'
        end
  end.

(** [find_handler] (lines 410-439); [(None, None)] is [None]. *)
Definition find_handler (self : t) (host : option string) (path : string)
    (rtype : RouteTypeArg) : M (option (Handler * parse.Result)) :=
  routes <- match rtype with
            | Rt REQUEST => ret (request_routes self)
            | Rt RESPONSE => ret (response_routes self)
            | NotARouteType r =>
                raise (mkExc ValueError ("Invalid route type: " ++ r))
            end ;;
  find_handler_loop host path routes.

(** Lines 145-150 and 180-185, the same in both hooks: the parsed URL of the
    request path, cached in the metadata. *)
Definition cached_urlparse : M urllib.ParseResult :=
  fl <- get_flow ;;
  match FlowMeta.REQ_URLPARSE (HTTPFlow.metadata fl) with
  | Some url => ret url
  | None =>
      url <- lift (urlparse (Request.path (HTTPFlow.request fl))) ;;
      modify_metadata (FlowMeta.set_REQ_URLPARSE url) ;;
      ret url
  end.

(** [request] (lines 138-171) *)
Definition request (self : t) : M unit :=
  url <- cached_urlparse ;;
  let path := urllib.path url in
  fl <- get_flow ;;
  let method := Request.method (HTTPFlow.request fl) in
  if is_True (FlowMeta.REQ_PASSTHROUGH (HTTPFlow.metadata fl)) then
    log_call WARNING "<= [%s] %s skipped because of previous passthrough"
      [LStr method; LStr path]
  else
    host <- remap_host self true ;;
    found <- find_handler self (Some host) path (Rt REQUEST) ;;
    match found with
    | Some (handler, params) =>
        fl <- get_flow ;;
        log_call INFO "<= [%s] %s"
          [LStr (Request.method (HTTPFlow.request fl)); LStr path] ;;
        handler (parse.fixed params) (parse.named params)
    | None =>
        fallback <- (if negb (request_passthrough self) then ret true
                     else hp <- get_host self ;;
                          ret (str_in (fst hp) (blacklist_domain self))) ;;
        fl <- get_flow ;;
        if (fallback : bool) then
          log_call WARNING "<= [%s] %s default response"
            [LStr (Request.method (HTTPFlow.request fl)); LStr path] ;;
          modify_flow (HTTPFlow.set_response (Some (default_response self)))
        else
          modify_metadata (FlowMeta.set_REQ_PASSTHROUGH true) ;;
          log_call DEBUG "<= [%s] %s passthrough"
            [LStr (Request.method (HTTPFlow.request fl)); LStr path]
    end.

(** [flow.response.status_code]: AttributeError when the flow has no
    response. *)
Definition response_status_code : M Z :=
  fl <- get_flow ;;
  match HTTPFlow.response fl with
  | Some r => ret (Response.status_code r)
  | None =>
      raise (mkExc AttributeError
               "'NoneType' object has no attribute 'status_code'")
  end.

(** [response] (lines 173-209) *)
Definition response (self : t) : M unit :=
  url <- cached_urlparse ;;
  let path := urllib.path url in
  fl <- get_flow ;;
  if is_True (FlowMeta.RESP_PASSTHROUGH (HTTPFlow.metadata fl)) then
    status <- response_status_code ;;
    log_call WARNING "=> [%s] %s skipped because of previous passthrough"
      [LInt status; LStr path]
  else
    hp <- get_host self ;;
    found <- find_handler self (Some (fst hp)) path (Rt RESPONSE) ;;
    match found with
    | Some (handler, params) =>
        status <- response_status_code ;;
        log_call INFO "=> [%s] %s" [LInt status; LStr path] ;;
        handler (parse.fixed params) (parse.named params)
    | None =>
        fallback <- (if negb (response_passthrough self) then ret true
                     else hp <- get_host self ;;
                          ret (str_in (fst hp) (blacklist_domain self))) ;;
        if (fallback : bool) then
          status <- response_status_code ;;
          log_call WARNING "=> [%s] %s default response"
            [LInt status; LStr path] ;;
          modify_flow (HTTPFlow.set_response (Some (default_response self)))
        else
          modify_metadata (FlowMeta.set_RESP_PASSTHROUGH true) ;;
          status <- response_status_code ;;
          log_call DEBUG "=> [%s] %s passthrough" [LInt status; LStr path]
    end.

(** The inner [handler] of [catcher] (lines 289-302). *)
Definition catcher (self : t) (return_error : bool) (func : Handler)
    : Handler :=
  fun args kwargs =>
    try_except_Exception (func args kwargs)
      (fun e =>
         log_call ERROR "Exception catched when handling response to %s:\n%s"
           [LObj; LObj] ;;
         if return_error then
           modify_flow
             (HTTPFlow.set_response (Some (error_response self (exc_str e))))
         else ret tt).

(** [route(path, host, rtype, catch_error, return_error)] applied to a view
    function (lines 281, 306-317): the registry is the state, and the
    decorated function is returned. *)
Definition route (path : string) (host : option string)
    (rtype : RouteTypeArg) (catch_error return_error : bool)
    (handler : Handler) (self : t) : t * Completion Handler :=
  let host := str_or host (default_host self) in
  let handler := if catch_error then catcher self return_error handler
                 else handler in
  match rtype with
  | Rt REQUEST =>
      match Parser_new path with
      | Normal p => (append_request_route (host, p, handler) self,
                     Normal handler)
      | Raise e => (self, Raise e)
      end
  | Rt RESPONSE =>
      match Parser_new path with
      | Normal p => (append_response_route (host, p, handler) self,
                     Normal handler)
      | Raise e => (self, Raise e)
      end
  | NotARouteType r =>
      (self, Raise (mkExc ValueError ("Invalid route type: " ++ r)))
  end.

End Methods.
End InterceptedAPI.

(** * Auxiliary definitions for the statements *)

Import InterceptedAPI.
Local Open Scope py_scope.

(** ** Reading and writing a world *)

Definition meta (w : World) : FlowMeta.dict := HTTPFlow.metadata (flow w).
Definition req (w : World) : Request.t := HTTPFlow.request (flow w).
Definition resp (w : World) : option Response.t := HTTPFlow.response (flow w).
Definition conn (w : World) : Server := HTTPFlow.server_conn (flow w).

(** [w] with the resolved host stored in the metadata of its flow. *)
Definition memo_host (hp : string * Z) (w : World) : World :=
  mkWorld (HTTPFlow.set_metadata (FlowMeta.set_REQ_HOST hp (meta w)) (flow w))
          (log w).

(** [w] with the parsed URL stored in the metadata of its flow. *)
Definition memo_url (u : urllib.ParseResult) (w : World) : World :=
  mkWorld
    (HTTPFlow.set_metadata (FlowMeta.set_REQ_URLPARSE u (meta w)) (flow w))
    (log w).

(** [w] with more records at the end of the log. *)
Definition logged (l : list LogRecord) (w : World) : World :=
  mkWorld (flow w) (log w ++ l).

(** [w] with the response of its flow replaced. *)
Definition with_response (r : Response.t) (w : World) : World :=
  mkWorld (HTTPFlow.set_response (Some r) (flow w)) (log w).

(** [w] with the request flag, or the response flag, set to [True]. *)
Definition flag_request (w : World) : World :=
  mkWorld
    (HTTPFlow.set_metadata (FlowMeta.set_REQ_PASSTHROUGH true (meta w))
       (flow w))
    (log w).

Definition flag_response (w : World) : World :=
  mkWorld
    (HTTPFlow.set_metadata (FlowMeta.set_RESP_PASSTHROUGH true (meta w))
       (flow w))
    (log w).


Section Auxiliary.
Context {C : Collaborators}.

(** The computation of lines 370-377 on a request, outside the monad. *)
Definition fresh_host (self : InterceptedAPI.t) (r : Request.t)
    : Completion (string * Z) :=
  if respect_proxy_headers self then
    match Headers_get (Request.headers r) "X-Forwarded-Host" with
    | None => Raise (mkExc KeyError "X-Forwarded-Host")
    | Some host =>
        match Headers_get (Request.headers r) "X-Forwarded-Port" with
        | None => Raise (mkExc KeyError "X-Forwarded-Port")
        | Some p =>
            match int_of_str p with
            | None => Raise (mkExc ValueError "invalid literal for int()")
            | Some port => Normal (host, port)
            end
        end
    end
  else
    let hp := parse_authority (pretty_host r) in
    Normal (fst hp,
            int_or_else (int_or (snd hp) (default_port (Request.scheme r))) 80).

(** The destination of the first rule of a host mapping that matches. *)
Fixpoint first_rule (mapping : list (HostSource * string)) (host : string)
    : option string :=
  match mapping with
  | [] => None
  | (src, dest) :: mapping' =>
      if src_matches src host then Some dest else first_rule mapping' host
  end.

(** A route matches an event: its host key is the host, and its pattern
    parses the path. *)
Definition route_matches (r : Route) (host : option string) (path : string)
    : bool :=
  let '(h, parser, _) := r in
  opt_str_eqb h host &&
  match Parser_parse parser path with Some _ => true | None => false end.

Definition route_handler (r : Route) : Handler := snd r.

Definition route_parser (r : Route) : Parser := snd (fst r).

Definition route_host (r : Route) : option string := fst (fst r).

(** The first route of a list that matches, with its parse result. *)
Fixpoint first_match (routes : list Route) (host : option string)
    (path : string) : option (Handler * parse.Result) :=
  match routes with
  | [] => None
  | (h, parser, handler) :: routes' =>
      if opt_str_eqb h host then
        match Parser_parse parser path with
        | Some r => Some (handler, r)
        | None => first_match routes' host path
        end
      else first_match routes' host path
  end.

(** The records a lookup leaves in the log: one for each parser it tried. *)
Fixpoint lookup_log (routes : list Route) (host : option string)
    (path : string) : list LogRecord :=
  match routes with
  | [] => []
  | (h, parser, handler) :: routes' =>
      if opt_str_eqb h host then
        mkLog DEBUG "Parse %s => %s" [LStr path; LObj] ::
        match Parser_parse parser path with
        | Some _ => []
        | None => lookup_log routes' host path
        end
      else lookup_log routes' host path
  end.

Definition routes_of (self : InterceptedAPI.t) (d : RouteType) : list Route :=
  match d with
  | REQUEST => request_routes self
  | RESPONSE => response_routes self
  end.

End Auxiliary.

Section Dispatch.
Context {C : Collaborators}.

(** The record [remap_host] logs when a rule matches. *)
Definition remap_record (host dest : string) (port : Z) : LogRecord :=
  mkLog DEBUG "flow: %s, remapping host: %s -> %s, port: %d"
    [LObj; LStr host; LStr dest; LInt port].

(** The records [remap_host] logs for a resolved host and port. *)
Definition remap_log (self : InterceptedAPI.t) (hp : string * Z)
    : list LogRecord :=
  match first_rule (host_mapping self) (fst hp) with
  | Some dest => [remap_record (fst hp) dest (snd hp)]
  | None => []
  end.

(** What [remap_host] returns for a resolved host, when it returns. *)
Definition mapped_host (self : InterceptedAPI.t) (host : string) : string :=
  match first_rule (host_mapping self) host with
  | Some dest => dest
  | None => host
  end.

(** The records host resolution logs in a hook, for a memoized host. *)
Definition resolve_log (self : InterceptedAPI.t) (d : RouteType)
    (hp : string * Z) : list LogRecord :=
  match d with
  | REQUEST => remap_log self hp
  | RESPONSE => []
  end.

(** The hook of a direction. *)
Definition hook (self : InterceptedAPI.t) (d : RouteType) : M unit :=
  match d with
  | REQUEST => request self
  | RESPONSE => response self
  end.

(** The host a hook looks routes up with: line 158, and line 194. *)
Definition resolve_host (self : InterceptedAPI.t) (d : RouteType) : M string :=
  match d with
  | REQUEST => remap_host self true
  | RESPONSE => hp <- get_host self ;; ret (fst hp)
  end.

(** The idempotence flag of a direction. *)
Definition flag_of (d : RouteType) (m : FlowMeta.dict) : option bool :=
  match d with
  | REQUEST => FlowMeta.REQ_PASSTHROUGH m
  | RESPONSE => FlowMeta.RESP_PASSTHROUGH m
  end.

(** [w] with the flag of a direction set to [True]. *)
Definition flag_world (d : RouteType) (w : World) : World :=
  match d with
  | REQUEST => flag_request w
  | RESPONSE => flag_response w
  end.

(** The passthrough setting of a direction. *)
Definition passthrough_of (self : InterceptedAPI.t) (d : RouteType) : bool :=
  match d with
  | REQUEST => request_passthrough self
  | RESPONSE => response_passthrough self
  end.

(** The fallback test of lines 163-166 and 199-202 for a resolved host:
    the default response replaces the flow's response. *)
Definition replaces (self : InterceptedAPI.t) (d : RouteType) (host : string)
    : bool :=
  negb (passthrough_of self d) || str_in host (blacklist_domain self).

(** The response hook formats [flow.response.status_code] in every record
    it logs: the flow of a response event carries a response. *)
Definition carries_response (d : RouteType) (w : World) : Prop :=
  match d with
  | REQUEST => True
  | RESPONSE => resp w <> None
  end.

Definition status_of (w : World) : Z :=
  match resp w with
  | Some r => Response.status_code r
  | None => 0%Z
  end.

(** The record a hook logs in a branch; [what] is the end of the message. *)
Definition hook_record (d : RouteType) (l : Level) (what : string)
    (w : World) (path : string) : LogRecord :=
  match d with
  | REQUEST =>
      mkLog l ("<= [%s] %s" ++ what) [LStr (Request.method (req w)); LStr path]
  | RESPONSE =>
      mkLog l ("=> [%s] %s" ++ what) [LInt (status_of w); LStr path]
  end.

(** The hook of direction [d] reaches the route lookup from [w]: the path is
    parsed, the flag of the direction is not set, and the host is resolved
    to [host] in the world [w1]. *)
Definition dispatched (self : InterceptedAPI.t) (d : RouteType) (w : World)
    (path host : string) (w1 : World) : Prop :=
  exists (w0 : World) (u : urllib.ParseResult),
    cached_urlparse w = (w0, Normal u)
    /\ path = urllib.path u
    /\ is_True (flag_of d (meta w0)) = false
    /\ resolve_host self d w0 = (w1, Normal host)
    /\ carries_response d w1.

(** The world after the lookup. *)
Definition looked_up (self : InterceptedAPI.t) (d : RouteType) (w1 : World)
    (path host : string) : World :=
  logged (lookup_log (routes_of self d) (Some host) path) w1.

(** The world a handler is invoked in. *)
Definition handled_in (self : InterceptedAPI.t) (d : RouteType) (w1 : World)
    (path host : string) : World :=
  logged [hook_record d INFO "" w1 path] (looked_up self d w1 path host).

(** The world the fallback leaves when it substitutes the default
    response. *)
Definition replaced (self : InterceptedAPI.t) (d : RouteType) (w1 : World)
    (path host : string) : World :=
  with_response (default_response self)
    (logged [hook_record d WARNING " default response" w1 path]
       (looked_up self d w1 path host)).

(** The world the fallback leaves when it lets the event pass. *)
Definition passed (self : InterceptedAPI.t) (d : RouteType) (w1 : World)
    (path host : string) : World :=
  logged [hook_record d DEBUG " passthrough" w1 path]
    (flag_world d (looked_up self d w1 path host)).

(** The world a hook leaves when the flag of its direction is set. *)
Definition skipped (d : RouteType) (w : World) (path : string) : World :=
  logged [hook_record d WARNING " skipped because of previous passthrough"
            w path] w.

(** The registry with one more route for a direction. *)
Definition registered (self : InterceptedAPI.t) (d : RouteType) (r : Route)
    : InterceptedAPI.t :=
  match d with
  | REQUEST => append_request_route r self
  | RESPONSE => append_response_route r self
  end.


End Dispatch.

(** * The pattern matcher *)

(** Modelled from the spec: the pattern matcher, that is the class [Parser]
    of the package [parse], which the source imports and which is not among
    the source files.  Section 4.1
    of the specification describes it: a template is literal text
    interleaved with placeholders [{name}] and [{}]; a placeholder matches
    one or more characters other than the separator, greedily; a match
    covers the whole path; a match yields the unnamed captures in order and
    the named captures; compiling a template fails with a PatternError when
    its placeholders are unbalanced or when it is empty. *)
Module PatternMatcher.

(** A compiled template: literal characters and placeholders.  The
    placeholder [{}] has the empty name. *)
Inductive Token : Type :=
| Chr (c : ascii)
| Hole (name : string).

Definition CompiledPattern : Type := list Token.

Definition separator : ascii := "/"%char.
Definition open_brace : ascii := "{"%char.
Definition close_brace : ascii := "}"%char.

Definition pattern_error (why : string) : PyExc := mkExc PatternError why.

(** Modelled from the spec: the scanner of [compile], which fails on
    unbalanced placeholders.  [inside] is [Some name] while a placeholder is
    open, with the characters of its name read so far. *)
Fixpoint tokenize (s : string) (inside : option string)
    : Completion CompiledPattern :=
  match s with
  | EmptyString =>
      match inside with
      | None => Normal []
      | Some _ => Raise (pattern_error "unbalanced placeholder")
      end
  | String c s' =>
      match inside with
      | None =>
          if Ascii.eqb c open_brace then tokenize s' (Some "")
          else if Ascii.eqb c close_brace then
            Raise (pattern_error "unbalanced placeholder")
          else
            match tokenize s' None with
            | Normal p => Normal (Chr c :: p)
            | Raise e => Raise e
            end
      | Some name =>
          if Ascii.eqb c close_brace then
            match tokenize s' None with
            | Normal p => Normal (Hole name :: p)
            | Raise e => Raise e
            end
          else if Ascii.eqb c open_brace then
            Raise (pattern_error "unbalanced placeholder")
          else tokenize s' (Some (name ++ String c "")%string)
      end
  end.

(** Modelled from the spec: [compile(template)] of the pattern matcher
    (the constructor of [parse.Parser], which is not among the source
    files); it fails on an empty template and on unbalanced placeholders. *)
Definition compile (template : string) : Completion CompiledPattern :=
  if String.eqb template "" then Raise (pattern_error "empty template")
  else tokenize template None.

(** A capture goes to the unnamed captures or to the named ones. *)
Definition add_capture (name value : string) (r : parse.Result)
    : parse.Result :=
  if String.eqb name "" then
    parse.mkResult (value :: parse.fixed r) (parse.named r)
  else parse.mkResult (parse.fixed r) ((name, value) :: parse.named r).

(** Modelled from the spec: a placeholder matches one or more characters
    other than the separator, greedily.  With [taken] already captured in
    front of [s], the capture is extended over the next character when that
    is not a separator, and the rest of the match [k] is tried on the
    longest capture first. *)
Fixpoint greedy {A : Type} (k : string -> string -> option A)
    (taken s : string) : option A :=
  let stop := if String.eqb taken "" then None else k taken s in
  match s with
  | EmptyString => stop
  | String c s' =>
      if Ascii.eqb c separator then stop
      else
        match greedy k (taken ++ String c "")%string s' with
        | Some r => Some r
        | None => stop
        end
  end.

(** Modelled from the spec: [match(pattern, path)] of the pattern matcher
    (the method [parse] of [parse.Parser], which is not among the source
    files); the match covers the whole path. *)
Fixpoint match_ (p : CompiledPattern) (path : string)
    : option parse.Result :=
  match p with
  | [] => if String.eqb path "" then Some (parse.mkResult [] []) else None
  | Chr c :: p' =>
      match path with
      | String c' path' => if Ascii.eqb c c' then match_ p' path' else None
      | EmptyString => None
      end
  | Hole name :: p' =>
      greedy
        (fun value rest => option_map (add_capture name value) (match_ p' rest))
        "" path
  end.

(** Braces pair up as placeholders: no brace inside a placeholder, no
    closing brace outside one, none left open. *)
Fixpoint balanced_from (open : bool) (s : string) : bool :=
  match s with
  | EmptyString => negb open
  | String c s' =>
      if Ascii.eqb c open_brace then negb open && balanced_from true s'
      else if Ascii.eqb c close_brace then open && balanced_from false s'
      else balanced_from open s'
  end.

(** A structurally valid template: not empty, placeholders balanced. *)
Definition structurally_valid (template : string) : bool :=
  negb (String.eqb template "") && balanced_from false template.

(** The names of the placeholders of a pattern, in order. *)
Fixpoint placeholders (p : CompiledPattern) : list string :=
  match p with
  | [] => []
  | Chr _ :: p' => placeholders p'
  | Hole name :: p' => name :: placeholders p'
  end.

(** The names of the named placeholders of a pattern, in order. *)
Definition named_placeholders (p : CompiledPattern) : list string :=
  filter (fun name => negb (String.eqb name "")) (placeholders p).

(** The pattern with its placeholders replaced by [values], in order. *)
Fixpoint fill (p : CompiledPattern) (values : list string) : option string :=
  match p with
  | [] => match values with [] => Some "" | _ :: _ => None end
  | Chr c :: p' => option_map (String c) (fill p' values)
  | Hole _ :: p' =>
      match values with
      | [] => None
      | v :: values' => option_map (String.append v) (fill p' values')
      end
  end.

(** The captures of a pattern for the values of its placeholders. *)
Fixpoint captures (p : CompiledPattern) (values : list string)
    : parse.Result :=
  match p, values with
  | Chr _ :: p', _ => captures p' values
  | Hole name :: p', v :: values' => add_capture name v (captures p' values')
  | _, _ => parse.mkResult [] []
  end.

(** No separator in a string. *)
Fixpoint separator_free (s : string) : bool :=
  match s with
  | EmptyString => true
  | String c s' => negb (Ascii.eqb c separator) && separator_free s'
  end.

(** What a placeholder may capture. *)
Definition capturable (v : string) : Prop :=
  v <> "" /\ separator_free v = true.

End PatternMatcher.

(** ** Collaborators for the examples *)

(** The collaborators [C] with the pattern matcher above in the place of
    the parser. *)
Definition with_pattern_matcher (C : Collaborators) : Collaborators :=
  {| Parser := PatternMatcher.CompiledPattern;
     Parser_new := PatternMatcher.compile;
     Parser_parse := PatternMatcher.match_;
     urlparse := @urlparse C;
     parse_authority := @parse_authority C;
     default_port := @default_port C;
     pretty_host := @pretty_host C;
     Headers_get := @Headers_get C;
     int_of_str := @int_of_str C;
     host_setter_headers := @host_setter_headers C;
     port_setter_headers := @port_setter_headers C |}.

Module Examples.

(** The part of a string before the first ['?'], and the part after it. *)
Fixpoint split_query (s : string) : string * string :=
  match s with
  | EmptyString => ("", "")
  | String c s' =>
      if Ascii.eqb c "?"%char then ("", s')
      else let '(p, q) := split_query s' in (String c p, q)
  end.

Fixpoint lookup (l : list (string * string)) (name : string)
    : option string :=
  match l with
  | [] => None
  | (k, v) :: l' => if String.eqb k name then Some v else lookup l' name
  end.

Definition digit (c : ascii) : option Z :=
  let n := Z.of_nat (nat_of_ascii c) in
  if ((48 <=? n) && (n <=? 57))%Z then Some (n - 48)%Z else None.

Fixpoint digits (s : string) (acc : Z) : option Z :=
  match s with
  | EmptyString => Some acc
  | String c s' =>
      match digit c with
      | Some d => digits s' (10 * acc + d)%Z
      | None => None
      end
  end.

(** The headers with the value of a header named [Host] replaced. *)
Definition with_host_header (v : string) (l : list (string * string))
    : list (string * string) :=
  map (fun kv => if String.eqb (fst kv) "Host" then ("Host", v) else kv) l.

(** Stand-ins for the collaborators, simple enough to evaluate: a URL is a
    path and a query, an authority is a bare host, the pretty host of a
    request is its host, header names are compared as they are, an integer
    is a run of decimal digits, and the setters of host and port give an
    existing [Host] header the host of the request as its value. *)
Definition plain : Collaborators :=
  {| Parser := PatternMatcher.CompiledPattern;
     Parser_new := PatternMatcher.compile;
     Parser_parse := PatternMatcher.match_;
     urlparse := fun s =>
       let '(p, q) := split_query s in
       Normal (urllib.mkParseResult "" "" p "" q "");
     parse_authority := fun s => (s, None);
     default_port := fun s =>
       if String.eqb s "http" then Some 80%Z
       else if String.eqb s "https" then Some 443%Z
       else None;
     pretty_host := Request.host;
     Headers_get := lookup;
     int_of_str := fun s =>
       if String.eqb s "" then None else digits s 0%Z;
     host_setter_headers := fun r =>
       with_host_header (Request.host r) (Request.headers r);
     port_setter_headers := fun r =>
       with_host_header (Request.host r) (Request.headers r) |}.

(** A template as literal text. *)
Fixpoint literal (template : string) : PatternMatcher.CompiledPattern :=
  match template with
  | EmptyString => []
  | String c template' => PatternMatcher.Chr c :: literal template'
  end.

(** The stand-ins above with a compiler that raises nothing, as the
    constructor [parse.Parser] of the package the source imports behaves on
    a template whose braces do not pair up and on the empty template: such
    a template is taken as literal text. *)
Definition lenient : Collaborators :=
  {| Parser := PatternMatcher.CompiledPattern;
     Parser_new := fun template =>
       match PatternMatcher.compile template with
       | Normal p => Normal p
       | Raise _ => Normal (literal template)
       end;
     Parser_parse := PatternMatcher.match_;
     urlparse := @urlparse plain;
     parse_authority := @parse_authority plain;
     default_port := @default_port plain;
     pretty_host := @pretty_host plain;
     Headers_get := @Headers_get plain;
     int_of_str := @int_of_str plain;
     host_setter_headers := @host_setter_headers plain;
     port_setter_headers := @port_setter_headers plain |}.

Definition get (path host : string) : Request.t :=
  Request.mk "GET" path host 80%Z "http" [].

Definition flow_of (r : Request.t) : HTTPFlow.t :=
  HTTPFlow.mk r None (mkServer None) FlowMeta.empty.

Definition world_of (r : Request.t) : World := mkWorld (flow_of r) [].

Definition ok : Response.t := Response.make 200 "ok" [].

(** A flow in the response event: it carries a response. *)
Definition answered (r : Request.t) : World :=
  mkWorld (HTTPFlow.mk r (Some ok) (mkServer None) FlowMeta.empty) [].

(** View functions: one tags the request with a header, one raises. *)
Definition tag (name : string) : Handler :=
  fun args kwargs =>
    modify_request
      (fun r =>
         Request.mk (Request.method r) (Request.path r) (Request.host r)
           (Request.port r) (Request.scheme r)
           ((name, String.concat "," (args ++ map snd kwargs))
              :: Request.headers r)).

Definition failing (m : string) : Handler :=
  fun args kwargs =>
    bind (tag "X-Partial" args kwargs)
         (fun _ => raise (mkExc (OtherException "RuntimeError") m)).


End Examples.

Module Scenario.
Import Examples.

(** The compiled pattern of a template that compiles. *)
Definition pattern (template : string) : PatternMatcher.CompiledPattern :=
  match PatternMatcher.compile template with
  | Normal p => p
  | Raise _ => []
  end.

(** An interceptor for [httpbin.org] with nothing registered. *)
Definition bare (passthrough : bool) (blacklist : list string)
    : @InterceptedAPI.t plain :=
  InterceptedAPI.init (C := plain) (Some "httpbin.org") None (Some blacklist)
    passthrough passthrough false.

(** [w] after a pass-through decision in both directions. *)
Definition marked (w : World) : World :=
  flag_response
    (flag_request (memo_url (urllib.mkParseResult "" "" "/get" "" "x=1" "") w)).

(** Three request routes for the same host whose patterns overlap. *)
Definition R0 : @InterceptedAPI.Route plain :=
  (Some "httpbin.org", pattern "/x/{a}", tag "X-R0").
Definition R1 : @InterceptedAPI.Route plain :=
  (Some "httpbin.org", pattern "/x/{b}", tag "X-R1").
Definition R2 : @InterceptedAPI.Route plain :=
  (Some "httpbin.org", pattern "/{c}/{d}", tag "X-R2").

Definition overlapping : @InterceptedAPI.t plain :=
  InterceptedAPI.mk (C := plain) (Some "httpbin.org") [] [R0; R1; R2] [] []
    true true false.

(** An interceptor that maps [evil.example] to [safe.example]. *)
Definition remapping (blacklist : list string) (routes : list (@InterceptedAPI.Route plain))
    : @InterceptedAPI.t plain :=
  InterceptedAPI.mk (C := plain) None
    [(SrcStr "evil.example", "safe.example")] [] routes blacklist
    true true false.

(** The route lists after [route] on a bare interceptor. *)
Definition decorated (template : string) (d : RouteType)
    (catch_error return_error : bool) (func : Handler)
    : @InterceptedAPI.t plain :=
  fst (InterceptedAPI.route (C := plain) template None (Rt d)
         catch_error return_error func (bare true [])).

End Scenario.

(** ** Auxiliary definitions for the remapper *)

(** The request already points at a destination and port (the negation of
    the test of line 338). *)
Definition points_at (dest : string) (port : Z) (w : World) : bool :=
  String.eqb (Request.host (req w)) dest && Z.eqb (Request.port (req w)) port.

Section Retarget.
Context {C : Collaborators}.

(** [w] after the assignments of lines 341-344: the scheme when one is
    given, the server connection, the host and the port of the request. *)
Definition retargeted (scheme : option string) (dest : string) (port : Z)
    (w : World) : World :=
  let r := match scheme with
           | Some s => Request.set_scheme s (req w)
           | None => req w
           end in
  mkWorld
    (HTTPFlow.set_request
       (InterceptedAPI.assign_port port (InterceptedAPI.assign_host dest r))
       (HTTPFlow.set_server_conn (mkServer (Some (dest, port))) (flow w)))
    (log w).

End Retarget.

(** ** More interceptors and flows for the examples *)

Module Fixtures.
Import Examples Scenario.

(** An interceptor behind a reverse proxy: it trusts the proxy headers and
    maps [evil.example] to [safe.example]. *)
Definition proxied : @InterceptedAPI.t plain :=
  InterceptedAPI.init (C := plain) None
    (Some [(SrcStr "evil.example", "safe.example")]) None true true true.

(** A request as a reverse proxy hands it over. *)
Definition forwarded (headers : list (string * string)) : Request.t :=
  Request.mk "GET" "/" "10.0.0.1" 8080%Z "http" headers.

(** An interceptor without default host and without routes. *)
Definition hostless : @InterceptedAPI.t plain :=
  InterceptedAPI.init (C := plain) None None None true true false.

(** An interceptor that blacklists its own host and lets nothing pass, with
    one request route. *)
Definition strict : @InterceptedAPI.t plain :=
  InterceptedAPI.mk (C := plain) (Some "httpbin.org") []
    [(Some "httpbin.org", pattern "/get", tag "X-Seen")] []
    ["httpbin.org"] false false false.

End Fixtures.

(** * Lemmas and theorems *)

Ltac unfold_monad :=
  cbv beta iota zeta delta
    [bind ret raise lift get_flow modify_flow modify_request modify_metadata
     log_call try_except_Exception].

Ltac run := unfold_monad; cbn [fst snd flow log].

Lemma world_eta (w : World) : mkWorld (flow w) (log w) = w.
Proof. destruct w; reflexivity. Qed.

Lemma logged_nil (w : World) : logged [] w = w.
Proof. unfold logged. rewrite app_nil_r. apply world_eta. Qed.

Lemma logged_logged (l1 l2 : list LogRecord) (w : World) :
  logged l2 (logged l1 w) = logged (l1 ++ l2) w.
Proof. unfold logged; cbn. now rewrite app_assoc. Qed.

(** ** Host resolver *)

Section HostResolver.
Context {C : Collaborators}.

Lemma get_host_cached (self : InterceptedAPI.t) (w : World) (hp : string * Z) :
  FlowMeta.REQ_HOST (meta w) = Some hp ->
  get_host self w = (w, Normal hp).
Proof.
  intros Hc. unfold get_host, metadata_getitem_REQ_HOST. run.
  unfold meta in Hc. rewrite Hc. run. rewrite Hc. reflexivity.
Qed.

Lemma get_host_first (self : InterceptedAPI.t) (w : World) :
  FlowMeta.REQ_HOST (meta w) = None ->
  get_host self w =
    match fresh_host self (req w) with
    | Normal hp => (memo_host hp w, Normal hp)
    | Raise e => (w, Raise e)
    end.
Proof.
  intros Hc. unfold get_host, metadata_getitem_REQ_HOST, fresh_host, req.
  run. unfold meta in Hc. rewrite Hc.
  destruct (respect_proxy_headers self).
  - unfold headers_getitem, int. run.
    destruct (Headers_get _ "X-Forwarded-Host"); run; [|reflexivity].
    destruct (Headers_get _ "X-Forwarded-Port"); run; [|reflexivity].
    destruct (int_of_str _); run; reflexivity.
  - destruct (parse_authority _) as [h p]. run. reflexivity.
Qed.

(** C6.  The first call of the host resolver on a flow computes the pair
    (host, port) from the request and stores it under [REQ_HOST]; when the
    computation raises, nothing is stored.  Once the field is set, a call
    returns the stored pair and leaves the world as it is, for every
    configuration and whatever the request has become: nothing is computed
    again and the field is not written a second time. *)
Theorem get_host_memoized (self : InterceptedAPI.t) (w : World) :
  match get_host self w with
  | (w1, Normal hp) =>
      FlowMeta.REQ_HOST (meta w1) = Some hp
      /\ (FlowMeta.REQ_HOST (meta w) = None ->
          fresh_host self (req w) = Normal hp /\ w1 = memo_host hp w)
      /\ (FlowMeta.REQ_HOST (meta w) <> None -> w1 = w)
      /\ (forall (self' : InterceptedAPI.t) (w2 : World),
            FlowMeta.REQ_HOST (meta w2) = FlowMeta.REQ_HOST (meta w1) ->
            get_host self' w2 = (w2, Normal hp))
  | (w1, Raise e) =>
      w1 = w /\ FlowMeta.REQ_HOST (meta w) = None
      /\ fresh_host self (req w) = Raise e
  end.
Proof.
  destruct (FlowMeta.REQ_HOST (meta w)) as [hp|] eqn:Hc.
  - rewrite (get_host_cached self w hp Hc).
    repeat split; try congruence.
    intros self' w2 H2. apply get_host_cached. congruence.
  - rewrite (get_host_first self w Hc).
    destruct (fresh_host self (req w)) as [hp|e] eqn:Hf.
    + repeat split; try congruence.
      intros self' w2 H2. apply get_host_cached. rewrite H2. reflexivity.
    + repeat split; reflexivity.
Qed.

End HostResolver.

(** ** Host remapper *)

Section HostRemapper.
Context {C : Collaborators}.

Lemma get_host_run (self : InterceptedAPI.t) (w w0 : World) (hp : string * Z) :
  get_host self w = (w0, Normal hp) -> w0 = memo_host hp w.
Proof.
  intros H.
  destruct (FlowMeta.REQ_HOST (meta w)) as [hp'|] eqn:Hc.
  - rewrite (get_host_cached self w hp' Hc) in H.
    injection H as <- <-.
    destruct w as [[r s c [a b u h]] l]. cbn in Hc. subst h. reflexivity.
  - rewrite (get_host_first self w Hc) in H.
    destruct (fresh_host self (req w)); congruence.
Qed.

Lemma get_host_raises (self : InterceptedAPI.t) (w w0 : World) (e : PyExc) :
  get_host self w = (w0, Raise e) -> w0 = w.
Proof.
  intros H.
  destruct (FlowMeta.REQ_HOST (meta w)) as [hp|] eqn:Hc.
  - rewrite (get_host_cached self w hp Hc) in H. congruence.
  - rewrite (get_host_first self w Hc) in H.
    destruct (fresh_host self (req w)); congruence.
Qed.

Lemma remap_host_loop_meta (self : InterceptedAPI.t) (ow : bool)
    (host : string) (port : Z) (mapping : list (HostSource * string)) :
  forall (w w' : World) (c : Completion string),
    remap_host_loop self ow host port mapping w = (w', c) ->
    meta w' = meta w /\ resp w' = resp w.
Proof.
  induction mapping as [|[src dest] mapping IH]; intros w w' c H; cbn in H.
  - unfold ret in H. injection H as <- _. split; reflexivity.
  - destruct (src_matches src host); [|eauto].
    revert H. unfold headers_getitem. run.
    destruct (ow && _); run.
    + destruct (respect_proxy_headers self); run.
      * destruct (Headers_get _ _); run; intros H; injection H as <- _;
          split; reflexivity.
      * intros H; injection H as <- _; split; reflexivity.
    + intros H; injection H as <- _; split; reflexivity.
Qed.

Lemma remap_host_loop_returns (self : InterceptedAPI.t) (ow : bool)
    (host : string) (port : Z) (mapping : list (HostSource * string)) :
  forall (w w' : World) (d : string),
    remap_host_loop self ow host port mapping w = (w', Normal d) ->
    d = match first_rule mapping host with Some dest => dest | None => host end.
Proof.
  induction mapping as [|[src dest] mapping IH]; intros w w' d H; cbn in H |- *.
  - unfold ret in H. congruence.
  - destruct (src_matches src host); [|eauto].
    revert H. unfold headers_getitem. run.
    destruct (ow && _); run.
    + destruct (respect_proxy_headers self); run.
      * destruct (Headers_get _ _); run; congruence.
      * congruence.
    + congruence.
Qed.

Lemma remap_host_loop_keep (self : InterceptedAPI.t) (host : string)
    (port : Z) (mapping : list (HostSource * string)) (w : World) :
  remap_host_loop self false host port mapping w =
    match first_rule mapping host with
    | Some dest => (logged [remap_record host dest port] w, Normal dest)
    | None => (w, Normal host)
    end.
Proof.
  induction mapping as [|[src dest] mapping IH]; cbn.
  - reflexivity.
  - destruct (src_matches src host); [|exact IH]. reflexivity.
Qed.

(** When the request already points at the mapped destination, the loop
    rewrites nothing, whatever [overwrite] is. *)
Lemma remap_host_loop_settled (self : InterceptedAPI.t) (ow : bool)
    (host : string) (port : Z) (mapping : list (HostSource * string))
    (w : World) :
  (forall dest, first_rule mapping host = Some dest ->
     Request.host (req w) = dest /\ Request.port (req w) = port) ->
  remap_host_loop self ow host port mapping w =
    match first_rule mapping host with
    | Some dest => (logged [remap_record host dest port] w, Normal dest)
    | None => (w, Normal host)
    end.
Proof.
  induction mapping as [|[src dest] mapping IH]; cbn; intros Hs.
  - reflexivity.
  - destruct (src_matches src host); [|exact (IH Hs)].
    destruct (Hs dest eq_refl) as [Hh Hp]. unfold req in Hh, Hp. run.
    rewrite Hh, Hp, String.eqb_refl, Z.eqb_refl, andb_false_r. reflexivity.
Qed.

(** After the loop has returned with [overwrite], the request points at the
    mapped destination. *)
Lemma remap_host_loop_target (self : InterceptedAPI.t)
    (host : string) (port : Z) (mapping : list (HostSource * string)) :
  forall (w w' : World) (d dest : string),
    remap_host_loop self true host port mapping w = (w', Normal d) ->
    first_rule mapping host = Some dest ->
    Request.host (req w') = dest /\ Request.port (req w') = port.
Proof.
  induction mapping as [|[src dst] mapping IH]; intros w w' d dest H Hr;
    cbn in H, Hr.
  - discriminate.
  - destruct (src_matches src host); [|eauto].
    injection Hr as ->. revert H. unfold headers_getitem. run.
    destruct (negb (Request.host _ =? dest)%string || _) eqn:Hne; run.
    + destruct (respect_proxy_headers self); run.
      * destruct (Headers_get _ _); run; intros H; [|discriminate].
        injection H as <- _. split; reflexivity.
      * intros H. injection H as <- _. split; reflexivity.
    + intros H. injection H as <- _. unfold req; cbn.
      apply orb_false_elim in Hne as [H1 H2].
      apply negb_false_iff in H1, H2.
      apply String.eqb_eq in H1. apply Z.eqb_eq in H2. auto.
Qed.

(** C7.  When the resolved host matches a rule of the host mapping,
    [remap_host] with [overwrite] false returns the destination of the first
    such rule, and the flow keeps its server connection, its request (host
    and port fields among the rest) and its response; the only changes are
    the memoized host in the metadata and one debug record in the log. *)
Theorem remap_host_without_overwrite (self : InterceptedAPI.t) (w w0 : World)
    (host dest : string) (port : Z) :
  get_host self w = (w0, Normal (host, port)) ->
  first_rule (host_mapping self) host = Some dest ->
  let w1 := logged [remap_record host dest port] (memo_host (host, port) w) in
  remap_host self false w = (w1, Normal dest)
  /\ conn w1 = conn w
  /\ Request.host (req w1) = Request.host (req w)
  /\ Request.port (req w1) = Request.port (req w)
  /\ req w1 = req w
  /\ resp w1 = resp w.
Proof.
  intros Hg Hr w1. split; [|repeat split].
  unfold remap_host, bind. rewrite Hg.
  rewrite remap_host_loop_keep, Hr.
  rewrite (get_host_run self w w0 _ Hg). reflexivity.
Qed.

(** The memoized host survives the remapper. *)
Lemma remap_host_memo (self : InterceptedAPI.t) (ow : bool) (w w1 : World)
    (dest : string) :
  remap_host self ow w = (w1, Normal dest) ->
  exists hp : string * Z,
    get_host self w = (memo_host hp w, Normal hp)
    /\ meta w1 = meta (memo_host hp w)
    /\ resp w1 = resp w
    /\ dest = mapped_host self (fst hp).
Proof.
  unfold remap_host, bind. intros H.
  destruct (get_host self w) as [w0 [[host port]|e]] eqn:Hg; [|discriminate].
  exists (host, port).
  pose proof (get_host_run self w w0 _ Hg) as ->.
  destruct (remap_host_loop_meta _ _ _ _ _ _ _ _ H) as [Hm Hp].
  repeat split; auto.
  apply (remap_host_loop_returns _ _ _ _ _ _ _ _ H).
Qed.

End HostRemapper.

(** ** Route registry *)

Section RouteRegistry.
Context {C : Collaborators}.

Lemma find_handler_loop_run (host : option string) (path : string)
    (routes : list Route) (w : World) :
  find_handler_loop host path routes w =
    (logged (lookup_log routes host path) w,
     Normal (first_match routes host path)).
Proof.
  revert w. induction routes as [|[[h parser] handler] routes IH]; intros w;
    cbn [find_handler_loop lookup_log first_match].
  - unfold ret. now rewrite logged_nil.
  - destruct (opt_str_eqb h host); cbn [negb]; [|apply IH].
    run. destruct (Parser_parse parser path).
    + reflexivity.
    + change (mkWorld (flow w) (log w ++ [mkLog DEBUG "Parse %s => %s" [LStr path; LObj]]))
        with (logged [mkLog DEBUG "Parse %s => %s" [LStr path; LObj]] w).
      rewrite IH, logged_logged. reflexivity.
Qed.

Lemma find_handler_run (self : InterceptedAPI.t) (host : option string)
    (path : string) (d : RouteType) (w : World) :
  find_handler self host path (Rt d) w =
    (logged (lookup_log (routes_of self d) host path) w,
     Normal (first_match (routes_of self d) host path)).
Proof.
  unfold find_handler. destruct d; run; apply find_handler_loop_run.
Qed.

Lemma first_match_skip (pre post : list Route) (host : option string)
    (path : string) :
  (forall r, In r pre -> route_matches r host path = false) ->
  first_match (pre ++ post) host path = first_match post host path.
Proof.
  induction pre as [|[[h parser] handler] pre IH]; intros Hpre; cbn.
  - reflexivity.
  - pose proof (Hpre (h, parser, handler) (or_introl eq_refl)) as H0.
    cbn in H0.
    assert (IH' := IH (fun r Hr => Hpre r (or_intror Hr))).
    destruct (opt_str_eqb h host); cbn in H0; [|exact IH'].
    destruct (Parser_parse parser path); [discriminate|exact IH'].
Qed.

Lemma first_match_here (r : Route) (post : list Route) (host : option string)
    (path : string) :
  route_matches r host path = true ->
  exists res, Parser_parse (route_parser r) path = Some res
    /\ first_match (r :: post) host path = Some (route_handler r, res).
Proof.
  destruct r as [[h parser] handler]. cbn. intros H.
  apply andb_prop in H as [Hh Hp]. rewrite Hh.
  destruct (Parser_parse parser path) as [res|]; [|discriminate].
  exists res. split; reflexivity.
Qed.

(** A lookup that finds an entry finds one that is registered and matches;
    every entry registered before it does not match. *)
Lemma first_match_sound (routes : list Route) (host : option string)
    (path : string) (handler : Handler) (res : parse.Result) :
  first_match routes host path = Some (handler, res) ->
  exists pre r post,
    routes = pre ++ r :: post
    /\ route_handler r = handler
    /\ route_host r = host
    /\ Parser_parse (route_parser r) path = Some res
    /\ forall r0, In r0 pre -> route_matches r0 host path = false.
Proof.
  induction routes as [|[[h parser] hd] routes IH]; cbn; [discriminate|].
  intros H.
  destruct (opt_str_eqb h host) eqn:Hh.
  - destruct (Parser_parse parser path) as [r0|] eqn:Hp.
    + injection H as <- <-. exists [], (h, parser, hd), routes.
      repeat split; auto.
      * cbn. destruct h, host; cbn in Hh; try discriminate; auto.
        apply String.eqb_eq in Hh. now subst.
      * intros r0' [].
    + destruct (IH H) as (pre & r & post & -> & ? & ? & ? & Hpre).
      exists ((h, parser, hd) :: pre), r, post. repeat split; auto.
      intros r0 [<-|Hin]; [cbn; now rewrite Hh, Hp|auto].
  - destruct (IH H) as (pre & r & post & -> & ? & ? & ? & Hpre).
    exists ((h, parser, hd) :: pre), r, post. repeat split; auto.
    intros r0 [<-|Hin]; [cbn; now rewrite Hh|auto].
Qed.

Lemma first_match_none (routes : list Route) (host : option string)
    (path : string) :
  first_match routes host path = None <->
  forall r, In r routes -> route_matches r host path = false.
Proof.
  induction routes as [|[[h parser] hd] routes IH]; cbn.
  - split; [intros _ r []|reflexivity].
  - destruct (opt_str_eqb h host) eqn:Hh.
    + destruct (Parser_parse parser path) eqn:Hp.
      * split; [discriminate|]. intros H.
        specialize (H _ (or_introl eq_refl)). cbn in H.
        now rewrite Hh, Hp in H.
      * rewrite IH. split.
        -- intros H r [<-|Hin]; [cbn; now rewrite Hh, Hp|auto].
        -- intros H r Hin. auto.
    + rewrite IH. split.
      * intros H r [<-|Hin]; [cbn; now rewrite Hh|auto].
      * intros H r Hin. auto.
Qed.

(** C1, amended.  Let R1 be registered before R2 for a direction, let an
    event match both, and let no route registered before R1 match it.  Then
    [find_handler] returns the handler of R1 with the result of R1's parser:
    the lookup scans the entries in registration order and returns the
    first whose host key equals the host and whose pattern parses the
    path. *)
Theorem find_handler_first_match (self : InterceptedAPI.t) (d : RouteType)
    (pre mid post : list Route) (R1 R2 : Route) (host : option string)
    (path : string) (w : World) :
  routes_of self d = pre ++ R1 :: mid ++ R2 :: post ->
  route_matches R1 host path = true ->
  route_matches R2 host path = true ->
  (forall R0, In R0 pre -> route_matches R0 host path = false) ->
  exists res,
    Parser_parse (route_parser R1) path = Some res
    /\ find_handler self host path (Rt d) w =
         (logged (lookup_log (routes_of self d) host path) w,
          Normal (Some (route_handler R1, res))).
Proof.
  intros Hroutes H1 _ Hpre.
  destruct (first_match_here R1 (mid ++ R2 :: post) host path H1)
    as (res & Hres & Hfm).
  exists res. split; [exact Hres|].
  rewrite find_handler_run, Hroutes, (first_match_skip _ _ _ _ Hpre), Hfm.
  reflexivity.
Qed.

End RouteRegistry.

(** ** Dispatch engine *)

Section DispatchEngine.
Context {C : Collaborators}.

Lemma cached_urlparse_run (w : World) :
  cached_urlparse w =
    match FlowMeta.REQ_URLPARSE (meta w) with
    | Some u => (w, Normal u)
    | None =>
        match urlparse (Request.path (req w)) with
        | Normal u => (memo_url u w, Normal u)
        | Raise e => (w, Raise e)
        end
    end.
Proof.
  unfold cached_urlparse, meta, req. run.
  destruct (FlowMeta.REQ_URLPARSE _); [reflexivity|].
  destruct (urlparse _); reflexivity.
Qed.

(** The parsed URL is in the cache once [cached_urlparse] has returned, and
    nothing else of the flow has changed. *)
Lemma cached_urlparse_cached (w w0 : World) (u : urllib.ParseResult) :
  cached_urlparse w = (w0, Normal u) ->
  w0 = memo_url u w /\ FlowMeta.REQ_URLPARSE (meta w0) = Some u.
Proof.
  rewrite cached_urlparse_run.
  destruct (FlowMeta.REQ_URLPARSE (meta w)) as [u'|] eqn:Hc.
  - intros H. injection H as <- <-. split; [|exact Hc].
    destruct w as [[r s c [a b x h]] l]. cbn in Hc. subst x. reflexivity.
  - destruct (urlparse _); [|discriminate].
    intros H. injection H as <- <-. split; reflexivity.
Qed.

(** A hook on a flow whose flag is set: it logs and returns. *)
Lemma hook_skipped (self : InterceptedAPI.t) (d : RouteType) (w : World)
    (u : urllib.ParseResult) :
  FlowMeta.REQ_URLPARSE (meta w) = Some u ->
  flag_of d (meta w) = Some true ->
  carries_response d w ->
  hook self d w = (skipped d w (urllib.path u), Normal tt).
Proof.
  intros Hu Hf Hr. destruct d; cbn [hook flag_of carries_response] in *.
  - unfold request, bind at 1. rewrite cached_urlparse_run, Hu. run.
    unfold meta in Hf. rewrite Hf. reflexivity.
  - unfold response, bind at 1. rewrite cached_urlparse_run, Hu. run.
    unfold meta in Hf. rewrite Hf. cbn [is_True].
    unfold response_status_code, skipped, hook_record, status_of, resp in *.
    run. destruct (HTTPFlow.response (flow w)); [reflexivity|contradiction].
Qed.

(** Host resolution of a hook: what it leaves in the metadata. *)
Lemma resolve_host_memo (self : InterceptedAPI.t) (d : RouteType)
    (w w1 : World) (host : string) :
  resolve_host self d w = (w1, Normal host) ->
  exists hp : string * Z,
    get_host self w = (memo_host hp w, Normal hp)
    /\ meta w1 = meta (memo_host hp w)
    /\ resp w1 = resp w
    /\ host = match d with
              | REQUEST => mapped_host self (fst hp)
              | RESPONSE => fst hp
              end.
Proof.
  destruct d; cbn [resolve_host].
  - apply remap_host_memo.
  - unfold bind, ret. intros H.
    destruct (get_host self w) as [w0 [hp|e]] eqn:Hg; [|discriminate].
    injection H as <- <-. exists hp.
    pose proof (get_host_run _ _ _ _ Hg) as ->. auto.
Qed.

Lemma dispatched_memo (self : InterceptedAPI.t) (d : RouteType) (w w1 : World)
    (path host : string) :
  dispatched self d w path host w1 ->
  exists (hp : string * Z) (u : urllib.ParseResult),
    FlowMeta.REQ_HOST (meta w1) = Some hp
    /\ FlowMeta.REQ_URLPARSE (meta w1) = Some u
    /\ path = urllib.path u
    /\ FlowMeta.REQ_PASSTHROUGH (meta w1) = FlowMeta.REQ_PASSTHROUGH (meta w)
    /\ FlowMeta.RESP_PASSTHROUGH (meta w1) = FlowMeta.RESP_PASSTHROUGH (meta w)
    /\ is_True (flag_of d (meta w1)) = false
    /\ resp w1 = resp w
    /\ host = match d with
              | REQUEST => mapped_host self (fst hp)
              | RESPONSE => fst hp
              end.
Proof.
  intros (w0 & u & Hu & -> & Hf & Hm & _).
  destruct (resolve_host_memo _ _ _ _ _ Hm) as (hp & Hg & Hmeta & Hresp & ->).
  destruct (cached_urlparse_cached _ _ _ Hu) as [-> Hc].
  exists hp, u. rewrite Hmeta, Hresp. repeat split; auto.
Qed.

(** The start of a hook that reaches the lookup. *)
Lemma hook_dispatched (self : InterceptedAPI.t) (d : RouteType) (w w1 : World)
    (path host : string) :
  dispatched self d w path host w1 ->
  hook self d w =
    match first_match (routes_of self d) (Some host) path with
    | Some (handler, params) =>
        handler (parse.fixed params) (parse.named params)
          (handled_in self d w1 path host)
    | None =>
        match FlowMeta.REQ_HOST (meta w1) with
        | Some hp =>
            if replaces self d (fst hp)
            then (replaced self d w1 path host, Normal tt)
            else (passed self d w1 path host, Normal tt)
        | None => (looked_up self d w1 path host,
                   Raise (mkExc KeyError "FlowMeta.REQ_HOST"))
        end
    end.
Proof.
  intros Hd.
  destruct (dispatched_memo _ _ _ _ _ _ Hd) as (hp & _ & Hhp & _).
  destruct Hd as (w0 & u & Hu & -> & Hf & Hm & Hr).
  rewrite Hhp.
  assert (Hhp2 : forall l, FlowMeta.REQ_HOST (meta (logged l w1)) = Some hp)
    by (intros l; exact Hhp).
  destruct d; cbn [hook resolve_host flag_of carries_response routes_of] in *.
  - unfold request, bind at 1. rewrite Hu. unfold bind at 1, get_flow at 1.
    unfold meta in Hf. rewrite Hf.
    unfold bind at 1. rewrite Hm.
    unfold bind at 1. rewrite find_handler_run. cbn [routes_of].
    destruct (first_match _ _ _) as [[handler params]|].
    + reflexivity.
    + unfold replaces. cbn [passthrough_of].
      destruct (request_passthrough self); cbn [negb orb].
      * unfold bind at 1. unfold bind at 1.
        rewrite (get_host_cached self (logged _ w1) hp (Hhp2 _)).
        run. destruct (str_in (fst hp) (blacklist_domain self)); reflexivity.
      * reflexivity.
  - unfold response, bind at 1. rewrite Hu. unfold bind at 1, get_flow at 1.
    unfold meta in Hf. rewrite Hf.
    unfold bind at 1.
    unfold bind at 1 in Hm. unfold ret in Hm.
    destruct (get_host self w0) as [w1' [hp'|e]] eqn:Hg; [|discriminate].
    injection Hm as -> <-.
    unfold bind at 1. rewrite find_handler_run. cbn [routes_of].
    set (w2 := logged (lookup_log (response_routes self) (Some (fst hp'))
                         (urllib.path u)) w1).
    change (looked_up self RESPONSE w1 (urllib.path u) (fst hp')) with w2.
    destruct (resp w1) as [r|] eqn:Hresp; [clear Hr|contradiction].
    assert (Hr2 : HTTPFlow.response (flow w2) = Some r) by exact Hresp.
    assert (Hst : status_of w1 = Response.status_code r)
      by (unfold status_of; now rewrite Hresp).
    destruct (first_match _ _ _) as [[handler params]|].
    + unfold response_status_code, handled_in, hook_record. run.
      rewrite Hr2, Hst. reflexivity.
    + unfold replaces, replaced, passed, hook_record. cbn [passthrough_of].
      rewrite Hst.
      destruct (response_passthrough self); cbn [negb orb].
      * unfold bind at 1. unfold bind at 1.
        rewrite (get_host_cached self w2 _ (Hhp2 _)).
        unfold response_status_code. run.
        destruct (str_in (fst hp) (blacklist_domain self)); run.
        -- rewrite Hr2. reflexivity.
        -- change (HTTPFlow.response _) with (HTTPFlow.response (flow w2)).
           rewrite Hr2. reflexivity.
      * unfold response_status_code. run. rewrite Hr2. reflexivity.
Qed.

Lemma hook_handled (self : InterceptedAPI.t) (d : RouteType) (w w1 : World)
    (path host : string) (handler : Handler) (params : parse.Result) :
  dispatched self d w path host w1 ->
  first_match (routes_of self d) (Some host) path = Some (handler, params) ->
  hook self d w =
    handler (parse.fixed params) (parse.named params)
      (handled_in self d w1 path host).
Proof.
  intros Hd Hfm. rewrite (hook_dispatched _ _ _ _ _ _ Hd), Hfm. reflexivity.
Qed.

Lemma hook_fallback (self : InterceptedAPI.t) (d : RouteType) (w w1 : World)
    (path host : string) (hp : string * Z) :
  dispatched self d w path host w1 ->
  first_match (routes_of self d) (Some host) path = None ->
  FlowMeta.REQ_HOST (meta w1) = Some hp ->
  hook self d w =
    if replaces self d (fst hp)
    then (replaced self d w1 path host, Normal tt)
    else (passed self d w1 path host, Normal tt).
Proof.
  intros Hd Hfm Hhp.
  rewrite (hook_dispatched _ _ _ _ _ _ Hd), Hfm, Hhp. reflexivity.
Qed.

(** Host resolution on a flow that a hook has resolved before: the host is
    read from the metadata and the request is not rewritten again. *)
Lemma resolve_host_again (self : InterceptedAPI.t) (d : RouteType)
    (w0 w1 w2 : World) (host : string) (hp : string * Z) :
  resolve_host self d w0 = (w1, Normal host) ->
  FlowMeta.REQ_HOST (meta w1) = Some hp ->
  FlowMeta.REQ_HOST (meta w2) = Some hp ->
  Request.host (req w2) = Request.host (req w1) ->
  Request.port (req w2) = Request.port (req w1) ->
  resolve_host self d w2 = (logged (resolve_log self d hp) w2, Normal host).
Proof.
  intros Hres Hhp1 Hhp2 Hh Hp.
  destruct d; cbn [resolve_host resolve_log] in *.
  - unfold remap_host, bind in *.
    rewrite (get_host_cached self w2 hp Hhp2).
    destruct (get_host self w0) as [w0' [[h p]|e]] eqn:Hg; [|discriminate].
    destruct (remap_host_loop_meta _ _ _ _ _ _ _ _ Hres) as [Hm _].
    pose proof (get_host_run _ _ _ _ Hg) as ->.
    assert (hp = (h, p)) as -> by (rewrite Hm in Hhp1; cbn in Hhp1; congruence).
    pose proof (remap_host_loop_returns _ _ _ _ _ _ _ _ Hres) as ->.
    cbn [fst snd]. rewrite remap_host_loop_settled.
    + unfold remap_log. cbn [fst snd].
      destruct (first_rule (host_mapping self) h); [reflexivity|].
      now rewrite logged_nil.
    + intros dest Hd. rewrite Hh, Hp.
      apply (remap_host_loop_target _ _ _ _ _ _ _ _ Hres Hd).
  - unfold bind, ret in *. rewrite (get_host_cached self w2 hp Hhp2).
    destruct (get_host self w0) as [w0' [hp0|e]] eqn:Hg; [|discriminate].
    injection Hres as -> <-.
    pose proof (get_host_run _ _ _ _ Hg) as ->.
    cbn in Hhp1. injection Hhp1 as ->. now rewrite logged_nil.
Qed.

End DispatchEngine.
(** ** Pattern matcher *)

Module PatternMatcherFacts.
Import PatternMatcher.

Lemma append_nil_r (s : string) : (s ++ "")%string = s.
Proof. induction s; cbn; congruence. Qed.

Lemma append_assoc (a b c : string) :
  ((a ++ b) ++ c)%string = (a ++ b ++ c)%string.
Proof. induction a; cbn; congruence. Qed.

Lemma append_empty (a b : string) : (a ++ b)%string = "" -> a = "" /\ b = "".
Proof. destruct a; cbn; [auto|discriminate]. Qed.

Lemma separator_free_app (a b : string) :
  separator_free (a ++ b) = separator_free a && separator_free b.
Proof.
  induction a as [|c a IH]; cbn; [reflexivity|].
  rewrite IH. now rewrite andb_assoc.
Qed.

(** A capture the greedy scan hands to the rest of the match extends what
    was taken by separator-free characters of the input, and is not empty. *)
Lemma greedy_sound {A : Type} (k : string -> string -> option A) (s : string) :
  forall (taken : string) (r : A),
    greedy k taken s = Some r ->
    exists ext rest : string,
      s = (ext ++ rest)%string
      /\ separator_free ext = true
      /\ (taken ++ ext)%string <> ""
      /\ k (taken ++ ext)%string rest = Some r.
Proof.
  induction s as [|c s IH]; intros taken r H; cbn in H.
  - destruct (String.eqb_spec taken ""); [discriminate|].
    exists "", "". rewrite !append_nil_r. auto.
  - assert (Hstop : (if (taken =? "")%string then None
                     else k taken (String c s)) = Some r ->
                    exists ext rest : string,
                      String c s = (ext ++ rest)%string
                      /\ separator_free ext = true
                      /\ (taken ++ ext)%string <> ""
                      /\ k (taken ++ ext)%string rest = Some r).
    { intros Hs. destruct (String.eqb_spec taken ""); [discriminate|].
      exists "", (String c s). rewrite !append_nil_r. auto. }
    destruct (Ascii.eqb c separator) eqn:Hc; [auto|].
    destruct (greedy k (taken ++ String c "") s) as [r'|] eqn:Hg; [|auto].
    injection H as ->.
    destruct (IH _ _ Hg) as (ext & rest & -> & Hsf & Hne & Hk).
    rewrite append_assoc in Hne, Hk. cbn in Hne, Hk.
    exists (String c ext), rest. cbn. rewrite Hc. auto.
Qed.

(** A match decomposes the path along the pattern: the captured values,
    put back in the place of the placeholders, give the path. *)
Lemma match_sound (p : CompiledPattern) :
  forall (path : string) (r : parse.Result),
    match_ p path = Some r ->
    exists values : list string,
      fill p values = Some path
      /\ r = captures p values
      /\ Forall capturable values
      /\ length values = length (placeholders p).
Proof.
  induction p as [|[c|name] p IH]; intros path r H; cbn in H.
  - destruct (String.eqb_spec path ""); [|discriminate].
    injection H as <-. subst. exists []. auto.
  - destruct path as [|c' path]; [discriminate|].
    destruct (Ascii.eqb_spec c c'); [|discriminate]. subst c'.
    destruct (IH _ _ H) as (values & Hf & -> & Hv & Hl).
    exists values. cbn. rewrite Hf. auto.
  - apply greedy_sound in H as (ext & rest & -> & Hsf & Hne & Hk).
    cbn in Hne, Hk.
    destruct (match_ p rest) as [r'|] eqn:Hm; [|discriminate].
    injection Hk as <-.
    destruct (IH _ _ Hm) as (values & Hf & -> & Hv & Hl).
    exists (ext :: values). cbn. rewrite Hf. cbn.
    repeat split; auto. constructor; [split|]; auto.
Qed.

Lemma captures_named (p : CompiledPattern) :
  forall values : list string,
    length values = length (placeholders p) ->
    map fst (parse.named (captures p values)) = named_placeholders p
    /\ length (parse.fixed (captures p values))
       = length (filter (fun n => String.eqb n "") (placeholders p)).
Proof.
  unfold named_placeholders.
  induction p as [|[c|name] p IH]; intros values Hl; cbn in *.
  - destruct values; auto.
  - destruct values; auto.
  - destruct values as [|v values]; [discriminate|].
    injection Hl as Hl. destruct (IH _ Hl) as [IH1 IH2].
    unfold add_capture. destruct (String.eqb name ""); cbn; split; congruence.
Qed.

(** The scanner raises exactly on unbalanced braces, and what it raises is
    a PatternError. *)
Lemma tokenize_balanced (s : string) :
  forall inside : option string,
    match tokenize s inside with
    | Normal _ =>
        balanced_from (match inside with Some _ => true | None => false end) s
        = true
    | Raise e =>
        balanced_from (match inside with Some _ => true | None => false end) s
        = false
        /\ exc_class e = PatternError
    end.
Proof.
  induction s as [|c s IH]; intros [name|]; cbn; auto.
  - destruct (Ascii.eqb c close_brace) eqn:Hc.
    + assert (Ascii.eqb c open_brace = false) as ->.
      { apply Ascii.eqb_eq in Hc. subst. reflexivity. }
      specialize (IH None). cbn in IH. destruct (tokenize s None); auto.
    + destruct (Ascii.eqb c open_brace); cbn; auto.
      apply (IH (Some _)).
  - destruct (Ascii.eqb c open_brace); cbn; [apply (IH (Some ""))|].
    destruct (Ascii.eqb c close_brace); cbn; auto.
    specialize (IH None). cbn in IH. destruct (tokenize s None); auto.
Qed.

(** Compilation fails exactly on the templates that are not structurally
    valid, with a PatternError. *)
Lemma compile_valid (template : string) :
  match compile template with
  | Normal _ => structurally_valid template = true
  | Raise e =>
      structurally_valid template = false /\ exc_class e = PatternError
  end.
Proof.
  unfold compile, structurally_valid.
  destruct (String.eqb template ""); cbn; auto.
  apply (tokenize_balanced template None).
Qed.

End PatternMatcherFacts.

(** * The claims of the specification on the dispatch engine *)

Section Claims.
Context {C : Collaborators}.

(** C2.  When the idempotence flag of a direction is set on a flow (by a
    first call of the hook, which has cached the parsed URL before), a call
    of the hook of that direction looks no handler up and has no effect on
    the flow: it logs one warning and returns.  The request, the response,
    the server connection and the metadata are as before, and the outcome
    is the same for every registry and configuration. *)
Theorem passthrough_flag_skips (self : InterceptedAPI.t) (d : RouteType)
    (w : World) (u : urllib.ParseResult) :
  flag_of d (meta w) = Some true ->
  FlowMeta.REQ_URLPARSE (meta w) = Some u ->
  carries_response d w ->
  let w' := skipped d w (urllib.path u) in
  hook self d w = (w', Normal tt)
  /\ flow w' = flow w
  /\ req w' = req w /\ resp w' = resp w /\ conn w' = conn w /\ meta w' = meta w
  /\ (exists r : LogRecord, log w' = log w ++ [r] /\ levelno r = WARNING)
  /\ forall self' : InterceptedAPI.t, hook self' d w = hook self d w.
Proof.
  intros Hf Hu Hr w'. repeat split.
  - apply hook_skipped; assumption.
  - eexists. split; [reflexivity|]. destruct d; reflexivity.
  - intros self'. now rewrite !(hook_skipped _ d w u).
Qed.

(** X21.  A pass-through decision is final: when a hook finds no route,
    passthrough is on and the host is not blacklisted, it sets the flag of
    its direction, and a second call of the hook on the flow it leaves is
    skipped. *)
Lemma passthrough_decision_is_final (self : InterceptedAPI.t) (d : RouteType)
    (w w1 : World) (path host : string) (hp : string * Z) :
  dispatched self d w path host w1 ->
  first_match (routes_of self d) (Some host) path = None ->
  FlowMeta.REQ_HOST (meta w1) = Some hp ->
  replaces self d (fst hp) = false ->
  let w' := passed self d w1 path host in
  hook self d w = (w', Normal tt)
  /\ flag_of d (meta w') = Some true
  /\ hook self d w' = (skipped d w' path, Normal tt).
Proof.
  intros Hd Hfm Hhp Hrep w'.
  rewrite (hook_fallback _ _ _ _ _ _ _ Hd Hfm Hhp), Hrep.
  destruct (dispatched_memo _ _ _ _ _ _ Hd)
    as (hp' & u & _ & Hu & -> & _ & _ & _ & _ & _).
  destruct Hd as (_ & _ & _ & _ & _ & _ & Hr).
  assert (Hflag : flag_of d (meta w') = Some true) by (destruct d; reflexivity).
  repeat split; [exact Hflag|].
  apply hook_skipped; [|exact Hflag|].
  - destruct d; exact Hu.
  - destruct d; [exact I|exact Hr].
Qed.

(** C3.  When a hook reaches the lookup, no route of its direction matches
    and the resolved host is in the blacklist, the response of the flow is
    replaced by the default response, status 404 with the header
    [X-Intercepted-By: xepor], whatever the passthrough setting of the
    direction is. *)
Theorem blacklisted_host_gets_default_response (self : InterceptedAPI.t)
    (d : RouteType) (w w1 : World) (path host : string) (hp : string * Z) :
  dispatched self d w path host w1 ->
  first_match (routes_of self d) (Some host) path = None ->
  FlowMeta.REQ_HOST (meta w1) = Some hp ->
  str_in (fst hp) (blacklist_domain self) = true ->
  let w' := replaced self d w1 path host in
  hook self d w = (w', Normal tt)
  /\ resp w' = Some (default_response self)
  /\ Response.status_code (default_response self) = 404%Z
  /\ In ("X-Intercepted-By", "xepor") (Response.headers (default_response self))
  /\ is_True (flag_of d (meta w')) = false.
Proof.
  intros Hd Hfm Hhp Hbl w'.
  rewrite (hook_fallback _ _ _ _ _ _ _ Hd Hfm Hhp).
  unfold replaces. rewrite Hbl, orb_true_r.
  repeat split; [left; reflexivity|].
  destruct (dispatched_memo _ _ _ _ _ _ Hd)
    as (_ & _ & _ & _ & _ & _ & _ & Hf & _).
  destruct d; exact Hf.
Qed.

(** C10.  The hooks set the idempotence flag of their direction in the
    pass-through branch and nowhere else.  When a handler is invoked, the
    hook hands it a flow whose flag is as it found it, unset; when the
    default response is substituted, the flag is unset afterwards.  So a
    second call of the hook is not skipped: after a handler that has left
    the metadata of the flow alone, it resolves the same host, repeats the
    lookup and invokes the same handler with the same captures; after a
    default response, it repeats the lookup and substitutes the default
    response again. *)
Theorem flag_set_only_on_passthrough (self : InterceptedAPI.t) (d : RouteType)
    (w w1 : World) (path host : string) (hp : string * Z) :
  dispatched self d w path host w1 ->
  FlowMeta.REQ_HOST (meta w1) = Some hp ->
  is_True (flag_of d (meta w)) = false
  /\ match first_match (routes_of self d) (Some host) path with
     | Some (handler, params) =>
         let invoke := handler (parse.fixed params) (parse.named params) in
         let w_in := handled_in self d w1 path host in
         hook self d w = invoke w_in
         /\ flag_of d (meta w_in) = flag_of d (meta w)
         /\ forall (w2 w3 : World) (c : Completion unit) (host2 : string),
              invoke w_in = (w2, c) ->
              meta w2 = meta w_in ->
              resolve_host self d w2 = (w3, Normal host2) ->
              carries_response d w3 ->
              is_True (flag_of d (meta w2)) = false
              /\ host2 = host
              /\ hook self d w2 = invoke (handled_in self d w3 path host)
     | None =>
         if replaces self d (fst hp) then
           let w' := replaced self d w1 path host in
           hook self d w = (w', Normal tt)
           /\ flag_of d (meta w') = flag_of d (meta w)
           /\ hook self d w' =
                (replaced self d (logged (resolve_log self d hp) w') path host,
                 Normal tt)
         else
           let w' := passed self d w1 path host in
           hook self d w = (w', Normal tt)
           /\ flag_of d (meta w') = Some true
     end.
Proof.
  intros Hd Hhp.
  destruct (dispatched_memo _ _ _ _ _ _ Hd)
    as (hp' & u & Hhp' & Hu & -> & Hrq & Hrs & Hf & Hresp & Hhost).
  assert (hp' = hp) as -> by congruence. clear Hhp'.
  assert (Hflag : flag_of d (meta w1) = flag_of d (meta w))
    by (destruct d; assumption).
  split; [now rewrite <- Hflag|].
  rewrite (hook_dispatched _ _ _ _ _ _ Hd), Hhp.
  destruct (first_match (routes_of self d) (Some host) (urllib.path u))
    as [[handler params]|] eqn:Hfm.
  - cbv zeta. split; [reflexivity|]. split; [exact Hflag|].
    intros w2 w3 c host2 Hrun Hmeta Hres Hcr.
    assert (Hf2 : is_True (flag_of d (meta w2)) = false)
      by (rewrite Hmeta; exact Hf).
    assert (Hc2 : FlowMeta.REQ_HOST (meta w2) = Some hp)
      by (rewrite Hmeta; exact Hhp).
    assert (host2 = host) as ->.
    { destruct (resolve_host_memo _ _ _ _ _ Hres) as (hp2 & Hg & _ & _ & ->).
      rewrite (get_host_cached self w2 hp Hc2) in Hg.
      assert (hp2 = hp) as -> by congruence. exact (eq_sym Hhost). }
    split; [exact Hf2|]. split; [reflexivity|].
    assert (Hd2 : dispatched self d w2 (urllib.path u) host w3).
    { exists w2, u. repeat split; auto.
      rewrite cached_urlparse_run, Hmeta.
      change (meta (handled_in self d w1 (urllib.path u) host))
        with (meta w1).
      now rewrite Hu. }
    rewrite (hook_handled _ _ _ _ _ _ _ _ Hd2 Hfm). reflexivity.
  - destruct (replaces self d (fst hp)) eqn:Hrep; cbv zeta.
    + repeat split; [exact Hflag|].
      set (w' := replaced self d w1 (urllib.path u) host).
      assert (Hres : resolve_host self d w'
                     = (logged (resolve_log self d hp) w', Normal host)).
      { destruct Hd as (w0 & u0 & _ & _ & _ & Hres0 & _).
        apply (resolve_host_again self d w0 w1 w' host hp Hres0 Hhp);
          [exact Hhp|reflexivity|reflexivity]. }
      assert (Hd2 : dispatched self d w' (urllib.path u) host
                      (logged (resolve_log self d hp) w')).
      { exists w', u. repeat split; auto.
        - rewrite cached_urlparse_run.
          change (meta w') with (meta w1). now rewrite Hu.
        - destruct d; [exact I|]. cbn. discriminate. }
      rewrite (hook_fallback _ _ _ _ _ _ hp Hd2 Hfm); [|exact Hhp].
      now rewrite Hrep.
    + repeat split. destruct d; reflexivity.
Qed.

(** Registration either adds the whole entry or leaves the registry as it
    was: the pattern is compiled before the entry is appended. *)
Lemma route_atomic (self : InterceptedAPI.t) (path : string)
    (host : option string) (d : RouteType) (catch_error return_error : bool)
    (func : Handler) :
  let handler := if catch_error then catcher self return_error func
                 else func in
  route path host (Rt d) catch_error return_error func self =
    match Parser_new path with
    | Normal p =>
        (registered self d (str_or host (default_host self), p, handler),
         Normal handler)
    | Raise e => (self, Raise e)
    end.
Proof.
  unfold route. destruct d; destruct (Parser_new path); reflexivity.
Qed.

(** C8, amended.  When the compiler of the pattern raises on a template,
    the registration call raises that exception itself, at registration and
    not at dispatch, and leaves the registry as it was.  In general a
    registration call either appends the whole entry, with the compiled
    pattern, or changes nothing.  The registration checks nothing of its
    own: which templates fail is the compiler's matter. *)
Theorem failed_registration_is_atomic (self : InterceptedAPI.t)
    (path : string) (host : option string) (d : RouteType)
    (catch_error return_error : bool) (func : Handler) (e : PyExc) :
  Parser_new path = Raise e ->
  route path host (Rt d) catch_error return_error func self = (self, Raise e)
  /\ forall (path' : string) (host' : option string) (d' : RouteType)
            (catch_error' return_error' : bool) (func' : Handler),
       match route path' host' (Rt d') catch_error' return_error' func' self
       with
       | (self', Normal h) =>
           exists p : Parser,
             Parser_new path' = Normal p
             /\ self' = registered self d'
                          (str_or host' (default_host self), p, h)
       | (self', Raise e') => self' = self /\ Parser_new path' = Raise e'
       end.
Proof.
  intros He. split.
  - now rewrite route_atomic, He.
  - intros path' host' d' ce' re' func'. rewrite route_atomic. cbv zeta.
    destruct (Parser_new path') as [p|e'].
    + exists p. split; reflexivity.
    + split; reflexivity.
Qed.



(** C9.  [remap_host] resolves the host through [get_host] before it
    applies the host mapping, so the pair in the metadata is the one of the
    flow as it arrived.  After the remapper has rewritten the destination,
    every call of [get_host] on a flow with that metadata returns this
    pair, whatever the request says by then; the blacklist test of the
    request hook and the lookup and the blacklist test of the response
    hook use its host, not the mapped destination. *)
Theorem host_memoized_before_remap (self : InterceptedAPI.t) (w0 w1 : World)
    (dest : string) :
  remap_host self true w0 = (w1, Normal dest) ->
  exists hp : string * Z,
    get_host self w0 = (memo_host hp w0, Normal hp)
    /\ (FlowMeta.REQ_HOST (meta w0) = None ->
        fresh_host self (req w0) = Normal hp)
    /\ dest = mapped_host self (fst hp)
    /\ FlowMeta.REQ_HOST (meta w1) = Some hp
    /\ (forall (self' : InterceptedAPI.t) (w2 : World),
          FlowMeta.REQ_HOST (meta w2) = FlowMeta.REQ_HOST (meta w1) ->
          get_host self' w2 = (w2, Normal hp))
    /\ (forall (w : World) (path : string),
          dispatched self REQUEST w path dest w1 ->
          first_match (request_routes self) (Some dest) path = None ->
          hook self REQUEST w =
            if replaces self REQUEST (fst hp)
            then (replaced self REQUEST w1 path dest, Normal tt)
            else (passed self REQUEST w1 path dest, Normal tt))
    /\ (forall (w2 w3 : World) (path host : string),
          FlowMeta.REQ_HOST (meta w2) = FlowMeta.REQ_HOST (meta w1) ->
          dispatched self RESPONSE w2 path host w3 ->
          host = fst hp
          /\ hook self RESPONSE w2 =
               match first_match (response_routes self) (Some (fst hp)) path
               with
               | Some (handler, params) =>
                   handler (parse.fixed params) (parse.named params)
                     (handled_in self RESPONSE w3 path (fst hp))
               | None =>
                   if replaces self RESPONSE (fst hp)
                   then (replaced self RESPONSE w3 path (fst hp), Normal tt)
                   else (passed self RESPONSE w3 path (fst hp), Normal tt)
               end).
Proof.
  intros Hm.
  destruct (remap_host_memo _ _ _ _ _ Hm) as (hp & Hg & Hmeta & _ & Hdest).
  assert (Hhp : FlowMeta.REQ_HOST (meta w1) = Some hp)
    by (rewrite Hmeta; reflexivity).
  exists hp.
  split; [exact Hg|]. split; [|split; [exact Hdest|]]; [|split; [exact Hhp|]].
  - intros Hnone. rewrite (get_host_first self w0 Hnone) in Hg.
    destruct (fresh_host self (req w0)); congruence.
  - split; [|split].
    + intros self' w2 H2. apply get_host_cached. congruence.
    + intros w path Hd Hfm. exact (hook_fallback _ _ _ _ _ _ _ Hd Hfm Hhp).
    + intros w2 w3 path host H2 Hd.
      assert (host = fst hp /\ FlowMeta.REQ_HOST (meta w3) = Some hp)
        as [-> Hhp3].
      { destruct Hd as (w0' & u & Hu & _ & _ & Hres & _).
        destruct (cached_urlparse_cached _ _ _ Hu) as [-> _].
        cbn [resolve_host] in Hres. unfold bind, ret in Hres.
        assert (Hc : FlowMeta.REQ_HOST (meta (memo_url u w2)) = Some hp)
          by (rewrite <- Hhp, <- H2; reflexivity).
        rewrite (get_host_cached self (memo_url u w2) hp Hc) in Hres.
        injection Hres as <- <-. auto. }
      split; [reflexivity|].
      rewrite (hook_dispatched _ _ _ _ _ _ Hd), Hhp3. reflexivity.
Qed.

End Claims.

(** * The claims of the specification on the pattern matcher *)

Section PatternClaims.
Variable C : Collaborators.

(** The collaborators of this section: the pattern matcher of the
    specification as the parser. *)
Let PM : Collaborators := with_pattern_matcher C.

(** C4.  When a template compiles and its pattern matches a path, the
    captured values, put in the place of the placeholders, give back the
    path; each is a non-empty stretch of the path without a separator; the
    named captures have exactly the names of the named placeholders, in
    order, one entry for each.  A hook whose lookup ends at a route with
    this pattern invokes the handler of the route with the flow and with
    the positional and the named captures of the match.  The template
    [/basic-auth/{usr}/{pwd}] matches [/basic-auth/alice/secret] with the
    named captures usr = alice and pwd = secret. *)
Theorem named_captures_reach_handler (template path : string)
    (p : PatternMatcher.CompiledPattern) (r : parse.Result) :
  PatternMatcher.compile template = Normal p ->
  PatternMatcher.match_ p path = Some r ->
  (exists values : list string,
     PatternMatcher.fill p values = Some path
     /\ Forall PatternMatcher.capturable values
     /\ r = PatternMatcher.captures p values)
  /\ map fst (parse.named r) = PatternMatcher.named_placeholders p
  /\ length (parse.named r) = length (PatternMatcher.named_placeholders p)
  /\ (forall (self : @InterceptedAPI.t PM) (d : RouteType) (w w1 : World)
             (host : string) (handler : Handler)
             (pre post : list (@Route PM)),
         dispatched (C := PM) self d w path host w1 ->
         routes_of (C := PM) self d = pre ++ (Some host, p, handler) :: post ->
         (forall r0, In r0 pre ->
                     route_matches (C := PM) r0 (Some host) path = false) ->
         hook (C := PM) self d w =
           handler (parse.fixed r) (parse.named r)
             (handled_in (C := PM) self d w1 path host))
  /\ (exists pA : PatternMatcher.CompiledPattern,
        PatternMatcher.compile "/basic-auth/{usr}/{pwd}" = Normal pA
        /\ PatternMatcher.match_ pA "/basic-auth/alice/secret"
           = Some (parse.mkResult [] [("usr", "alice"); ("pwd", "secret")])).
Proof.
  intros Hc Hm.
  destruct (PatternMatcherFacts.match_sound p path r Hm)
    as (values & Hfill & -> & Hcap & Hlen).
  destruct (PatternMatcherFacts.captures_named p values Hlen) as [Hnames _].
  split; [exists values; auto|].
  split; [exact Hnames|].
  split; [now rewrite <- Hnames, length_map|].
  split.
  - intros self d w w1 host handler pre post Hd Hroutes Hpre.
    apply (hook_handled (C := PM) self d w w1 path host handler _ Hd).
    rewrite Hroutes, (first_match_skip (C := PM) _ _ _ _ Hpre). cbn.
    rewrite String.eqb_refl.
    change (@Parser_parse PM p path) with (PatternMatcher.match_ p path).
    now rewrite Hm.
  - eexists. split; reflexivity.
Qed.

End PatternClaims.



(** ** The scenarios of the specification, evaluated *)

Module SpecScenarios.
Import Examples Scenario.

(** Scenario B: the query string is stripped before the match, and the
    handler of [/get] runs without captures. *)
Example scenario_B :
  let out := request (C := plain)
               (decorated "/get" REQUEST true false (tag "X-Seen"))
               (world_of (get "/get?x=1" "httpbin.org")) in
  snd out = Normal tt
  /\ Request.headers (req (fst out)) = [("X-Seen", "")]
  /\ PatternMatcher.match_ (pattern "/get") "/get?x=1" = None.
Proof. repeat split. Qed.

(** Scenario C: no route, passthrough on, host not blacklisted: the event
    passes unmodified and the request flag is set. *)
Example scenario_C :
  let out := request (C := plain) (bare true [])
               (world_of (get "/anything" "evil.example")) in
  snd out = Normal tt
  /\ FlowMeta.REQ_PASSTHROUGH (meta (fst out)) = Some true
  /\ req (fst out) = get "/anything" "evil.example"
  /\ resp (fst out) = None
  /\ conn (fst out) = mkServer None.
Proof. repeat split. Qed.

(** Scenario D: the mapping sends [evil.example] to [safe.example]; the
    remapper returns the destination and points the connection and the
    request at it, on the resolved port. *)
Example scenario_D :
  let out := remap_host (C := plain) (remapping [] []) true
               (world_of (get "/" "evil.example")) in
  snd out = Normal "safe.example"
  /\ conn (fst out) = mkServer (Some ("safe.example", 80%Z))
  /\ Request.host (req (fst out)) = "safe.example"
  /\ Request.port (req (fst out)) = 80%Z.
Proof. repeat split. Qed.

(** After the remapper, a response route registered for the original host
    is found, and one registered for the mapped destination is not. *)
Example response_lookup_after_remap :
  let seen := (Some "evil.example", pattern "/", tag "X-Original") in
  let unseen := (Some "safe.example", pattern "/", tag "X-Mapped") in
  let remapped :=
    fst (remap_host (C := plain) (remapping [] []) true
           (answered (get "/" "evil.example"))) in
  Request.host (req remapped) = "safe.example"
  /\ Request.headers
       (req (fst (response (C := plain) (remapping [] [unseen; seen])
                    remapped)))
     = [("X-Original", "")].
Proof. repeat split. Qed.

(** After the remapper, the blacklist is tested against the original host:
    listing the mapped destination does not block the event, listing the
    original host does. *)
Example blacklist_after_remap :
  resp (fst (request (C := plain) (remapping ["safe.example"] [])
               (world_of (get "/" "evil.example")))) = None
  /\ resp (fst (request (C := plain) (remapping ["evil.example"] [])
                  (world_of (get "/" "evil.example"))))
     = Some (Response.make 404 "Not Found" [("X-Intercepted-By", "xepor")]).
Proof. repeat split. Qed.

(** The assignments of host and port go through the setters: with the
    stand-in for them, a [Host] header that is there follows the rewrite,
    and the other headers stay. *)
Example remap_rewrites_host_header :
  Request.headers
    (req (fst (remap_host (C := plain) (remapping [] []) true
                 (world_of
                    (Request.mk "GET" "/" "evil.example" 80%Z "http"
                       [("Host", "evil.example"); ("Accept", "*/*")])))))
  = [("Host", "safe.example"); ("Accept", "*/*")].
Proof. reflexivity. Qed.

End SpecScenarios.

(** ** Instances of the claims *)

Module Witnesses.
Import Examples Scenario.

Lemma passthrough_flag_skips_witness :
  hook (bare true []) RESPONSE (marked (answered (get "/get?x=1" "httpbin.org")))
  = (logged [mkLog WARNING
               "=> [%s] %s skipped because of previous passthrough"
               [LInt 200; LStr "/get"]]
       (marked (answered (get "/get?x=1" "httpbin.org"))),
     Normal tt).
Proof.
  exact (proj1 (passthrough_flag_skips (C := plain) (bare true []) RESPONSE
                  (marked (answered (get "/get?x=1" "httpbin.org")))
                  (urllib.mkParseResult "" "" "/get" "" "x=1" "")
                  eq_refl eq_refl
                  (fun H : Some ok = None => eq_ind (Some ok)
                     (fun o => match o with Some _ => True | None => False end)
                     I None H))).
Defined.

Lemma find_handler_first_match_witness :
  exists res : parse.Result,
    PatternMatcher.match_ (pattern "/x/{a}") "/x/1" = Some res
    /\ find_handler (C := plain) overlapping (Some "httpbin.org") "/x/1"
         (Rt REQUEST) (world_of (get "/x/1" "httpbin.org"))
       = (logged [mkLog DEBUG "Parse %s => %s" [LStr "/x/1"; LObj]]
            (world_of (get "/x/1" "httpbin.org")),
          Normal (Some (tag "X-R0", res))).
Proof.
  apply (find_handler_first_match (C := plain) overlapping REQUEST
           [] [R1] [] R0 R2 (Some "httpbin.org") "/x/1"
           (world_of (get "/x/1" "httpbin.org")));
    [reflexivity | reflexivity | reflexivity | intros R [] ].
Defined.

(** C1 as it is stated fails on three overlapping routes: [R1] is
    registered before [R2] and the event matches both, yet the lookup does
    not return the handler of [R1]; it returns the handler of [R0], which
    was registered first and matches too. *)
Lemma find_handler_pair_counterexample :
  routes_of (C := plain) overlapping REQUEST = [R0] ++ R1 :: [] ++ R2 :: []
  /\ route_matches (C := plain) R1 (Some "httpbin.org") "/x/1" = true
  /\ route_matches (C := plain) R2 (Some "httpbin.org") "/x/1" = true
  /\ ~ (exists (res : parse.Result) (w' : World),
          find_handler (C := plain) overlapping (Some "httpbin.org") "/x/1"
            (Rt REQUEST) (world_of (get "/x/1" "httpbin.org"))
          = (w', Normal (Some (route_handler (C := plain) R1, res)))).
Proof.
  repeat split.
  intros (res & w' & H).
  rewrite (find_handler_run (C := plain)) in H.
  injection H as _ Hh _.
  assert (Hrun : tag "X-R0" [] [] (world_of (get "/" "h"))
                 = tag "X-R1" [] [] (world_of (get "/" "h")))
    by (change (route_handler (C := plain) R1) with (tag "X-R1") in Hh;
        now rewrite Hh).
  discriminate Hrun.
Qed.

Ltac reach :=
  eexists _, _; repeat split; try reflexivity; try discriminate.

(** A response from a blacklisted host with no route: replaced, although
    [response_passthrough] is true. *)
Lemma blacklisted_host_gets_default_response_witness :
  response_passthrough (bare true ["evil.example"]) = true
  /\ exists w' : World,
       response (C := plain) (bare true ["evil.example"])
         (answered (get "/nothing" "evil.example")) = (w', Normal tt)
       /\ resp w'
          = Some (Response.make 404 "Not Found" [("X-Intercepted-By", "xepor")]).
Proof.
  split; [reflexivity|].
  eexists. split.
  - apply (blacklisted_host_gets_default_response (C := plain)
             (bare true ["evil.example"]) RESPONSE
             (answered (get "/nothing" "evil.example"))
             (memo_host ("evil.example", 80%Z)
                (memo_url (urllib.mkParseResult "" "" "/nothing" "" "" "")
                   (answered (get "/nothing" "evil.example"))))
             "/nothing" "evil.example" ("evil.example", 80%Z));
      [reach | reflexivity | reflexivity | reflexivity].
  - reflexivity.
Defined.

Lemma named_captures_reach_handler_witness :
  map fst
    (parse.named (parse.mkResult [] [("usr", "alice"); ("pwd", "secret")]))
  = PatternMatcher.named_placeholders (pattern "/basic-auth/{usr}/{pwd}")
  /\ PatternMatcher.named_placeholders (pattern "/basic-auth/{usr}/{pwd}")
     = ["usr"; "pwd"].
Proof.
  split; [|reflexivity].
  apply (named_captures_reach_handler plain "/basic-auth/{usr}/{pwd}"
           "/basic-auth/alice/secret" (pattern "/basic-auth/{usr}/{pwd}")
           (parse.mkResult [] [("usr", "alice"); ("pwd", "secret")]));
    reflexivity.
Defined.



Lemma remap_host_without_overwrite_witness :
  exists w1 : World,
    remap_host (C := plain) (remapping [] []) false
      (world_of (get "/" "evil.example")) = (w1, Normal "safe.example")
    /\ Request.host (req w1) = "evil.example"
    /\ Request.port (req w1) = 80%Z
    /\ conn w1 = mkServer None.
Proof.
  eexists. split.
  - apply (remap_host_without_overwrite (C := plain) (remapping [] [])
             (world_of (get "/" "evil.example"))
             (memo_host ("evil.example", 80%Z)
                (world_of (get "/" "evil.example")))
             "evil.example" "safe.example" 80%Z);
      reflexivity.
  - repeat split.
Defined.

(** With the pattern matcher of the specification as the compiler, which
    raises on [/user/{id]: the registration raises and the registry is as
    before. *)
Lemma failed_registration_is_atomic_witness :
  route (C := plain) "/user/{id" None (Rt REQUEST) true false (tag "X-User")
    (bare true [])
  = (bare true [], Raise (mkExc PatternError "unbalanced placeholder")).
Proof.
  exact (proj1 (failed_registration_is_atomic (C := plain) (bare true [])
                  "/user/{id" None REQUEST true false (tag "X-User")
                  (mkExc PatternError "unbalanced placeholder") eq_refl)).
Defined.

(** C8 as it is stated fails where the compiler takes the template: with a
    compiler that reads a brace that closes no field as literal text, the
    registration of [/user/{id] and of the empty template returns normally
    and appends the entry, although neither template is structurally
    valid.  The registration has no check and no PatternError of its
    own. *)
Lemma invalid_template_is_registered_counterexample :
  PatternMatcher.structurally_valid "/user/{id" = false
  /\ PatternMatcher.structurally_valid "" = false
  /\ route (C := lenient) "/user/{id" None (Rt REQUEST) false false
       (tag "X-User")
       (InterceptedAPI.init (C := lenient) (Some "httpbin.org") None None
          true true false)
     = (InterceptedAPI.mk (C := lenient) (Some "httpbin.org") []
          [(Some "httpbin.org", literal "/user/{id", tag "X-User")] [] []
          true true false,
        Normal (tag "X-User"))
  /\ route (C := lenient) "" None (Rt REQUEST) false false (tag "X-Root")
       (InterceptedAPI.init (C := lenient) (Some "httpbin.org") None None
          true true false)
     = (InterceptedAPI.mk (C := lenient) (Some "httpbin.org") []
          [(Some "httpbin.org", literal "", tag "X-Root")] [] []
          true true false,
        Normal (tag "X-Root")).
Proof. repeat split. Qed.

(** The remapper rewrites the request to [safe.example]; the resolver still
    answers [evil.example], where a fresh computation on the rewritten
    request would give [safe.example]. *)
Lemma host_memoized_before_remap_witness :
  exists w1 : World,
    remap_host (C := plain) (remapping [] []) true
      (world_of (get "/" "evil.example")) = (w1, Normal "safe.example")
    /\ Request.host (req w1) = "safe.example"
    /\ fresh_host (C := plain) (remapping [] []) (req w1)
       = Normal ("safe.example", 80%Z)
    /\ get_host (C := plain) (remapping [] []) w1
       = (w1, Normal ("evil.example", 80%Z)).
Proof.
  eexists. split; [reflexivity|]. split; [reflexivity|]. split; [reflexivity|].
  destruct (host_memoized_before_remap (C := plain) (remapping [] [])
              (world_of (get "/" "evil.example")) _ "safe.example" eq_refl)
    as (hp & Hg & _ & _ & _ & Hlater & _).
  rewrite (Hlater (remapping [] []) _ eq_refl).
  f_equal. f_equal.
  injection Hg as _ Hhp. exact (eq_sym Hhp).
Defined.

(** A request that a handler has served is served again by a second call
    of the hook: the flag is unset and the handler runs twice. *)
Lemma flag_set_only_on_passthrough_witness :
  exists w2 w3 : World,
    request (C := plain) (decorated "/get" REQUEST true false (tag "X-Seen"))
      (world_of (get "/get?x=1" "httpbin.org")) = (w2, Normal tt)
    /\ FlowMeta.REQ_PASSTHROUGH (meta w2) = None
    /\ request (C := plain) (decorated "/get" REQUEST true false (tag "X-Seen"))
         w2 = (w3, Normal tt)
    /\ Request.headers (req w3) = [("X-Seen", ""); ("X-Seen", "")].
Proof.
  destruct (flag_set_only_on_passthrough (C := plain)
              (decorated "/get" REQUEST true false (tag "X-Seen")) REQUEST
              (world_of (get "/get?x=1" "httpbin.org"))
              (memo_host ("httpbin.org", 80%Z)
                 (memo_url (urllib.mkParseResult "" "" "/get" "" "x=1" "")
                    (world_of (get "/get?x=1" "httpbin.org"))))
              "/get" "httpbin.org" ("httpbin.org", 80%Z)
              ltac:(reach) eq_refl)
    as (_ & H1 & _ & H2).
  eexists _, _. split; [exact H1|]. split; [reflexivity|].
  split.
  - apply (H2 _ _ _ "httpbin.org" eq_refl eq_refl eq_refl I).
  - reflexivity.
Defined.

End Witnesses.
(** * Further properties of the registry, the resolver and the hooks *)

(** ** Lookup and registration *)

Section RegistryProperties.
Context {C : Collaborators}.

Lemma first_match_app (routes : list Route) (r : Route)
    (host : option string) (path : string) :
  first_match (routes ++ [r]) host path =
    match first_match routes host path with
    | Some found => Some found
    | None => first_match [r] host path
    end.
Proof.
  induction routes as [|[[h parser] handler] routes IH]; cbn [app first_match].
  - reflexivity.
  - destruct (opt_str_eqb h host); [|exact IH].
    destruct (Parser_parse parser path); [reflexivity|exact IH].
Qed.

Lemma lookup_log_app (routes : list Route) (r : Route)
    (host : option string) (path : string) :
  lookup_log (routes ++ [r]) host path =
    lookup_log routes host path ++
    match first_match routes host path with
    | Some _ => []
    | None => lookup_log [r] host path
    end.
Proof.
  induction routes as [|[[h parser] handler] routes IH];
    cbn [app first_match lookup_log].
  - reflexivity.
  - destruct (opt_str_eqb h host); [|exact IH].
    destruct (Parser_parse parser path); [reflexivity|].
    cbn [app]. now rewrite IH.
Qed.

Lemma lookup_log_debug (routes : list Route) (host : option string)
    (path : string) :
  Forall (fun r => levelno r = DEBUG /\ msg r = "Parse %s => %s")
    (lookup_log routes host path)
  /\ length (lookup_log routes host path) <= length routes.
Proof.
  induction routes as [|[[h parser] handler] routes [IH1 IH2]];
    cbn [lookup_log length].
  - split; [constructor|lia].
  - destruct (opt_str_eqb h host); [|split; [exact IH1|lia]].
    destruct (Parser_parse parser path); cbn [length].
    + split; [repeat constructor|lia].
    + split; [constructor; [split; reflexivity|exact IH1]|lia].
Qed.

(** X1.  The lookup of a direction returns no handler exactly when no route of
    the direction matches the event; it does not raise. *)
Theorem find_handler_none_iff (self : InterceptedAPI.t) (d : RouteType)
    (host : option string) (path : string) (w : World) :
  (exists found, snd (find_handler self host path (Rt d) w) = Normal found)
  /\ (snd (find_handler self host path (Rt d) w) = Normal None <->
      forall r, In r (routes_of self d) -> route_matches r host path = false).
Proof.
  rewrite find_handler_run. cbn [snd]. split; [eauto|].
  rewrite <- first_match_none. split; [congruence|intros ->; reflexivity].
Qed.

(** X2.  A handler that the lookup returns is the handler of a registered route
    of the direction whose host key is the host and whose parser gives the
    returned result on the path; no route registered before it matches. *)
Theorem find_handler_sound (self : InterceptedAPI.t) (d : RouteType)
    (host : option string) (path : string) (w w' : World)
    (handler : Handler) (res : parse.Result) :
  find_handler self host path (Rt d) w = (w', Normal (Some (handler, res))) ->
  exists (pre : list Route) (r : Route) (post : list Route),
    routes_of self d = pre ++ r :: post
    /\ route_handler r = handler
    /\ route_host r = host
    /\ Parser_parse (route_parser r) path = Some res
    /\ forall r0, In r0 pre -> route_matches r0 host path = false.
Proof.
  rewrite find_handler_run. intros H.
  apply first_match_sound. congruence.
Qed.

(** X3.  The lookup reads the registry only: it leaves the flow as it is, adds
    debug records to the log, at most one for each route of the direction,
    and returns the same from every world.  With a value that is no route
    type it raises ValueError and logs nothing. *)
Theorem find_handler_frame (self : InterceptedAPI.t) (host : option string)
    (path : string) (rtype : RouteTypeArg) (w : World) :
  flow (fst (find_handler self host path rtype w)) = flow w
  /\ (exists l : list LogRecord,
        log (fst (find_handler self host path rtype w)) = log w ++ l
        /\ Forall (fun r => levelno r = DEBUG) l
        /\ match rtype with
           | Rt d => length l <= length (routes_of self d)
           | NotARouteType _ => l = []
           end)
  /\ (forall w2 : World,
        snd (find_handler self host path rtype w2)
        = snd (find_handler self host path rtype w))
  /\ match rtype with
     | Rt _ => True
     | NotARouteType _ =>
         exists e, snd (find_handler self host path rtype w) = Raise e
                   /\ exc_class e = ValueError
     end.
Proof.
  destruct rtype as [d|r].
  - rewrite find_handler_run. cbn [fst snd].
    destruct (lookup_log_debug (routes_of self d) host path) as [Hd Hl].
    repeat split.
    + exists (lookup_log (routes_of self d) host path).
      repeat split; [|exact Hl].
      eapply Forall_impl; [|exact Hd]. now intros r [H _].
    + intros w2. now rewrite find_handler_run.
  - unfold find_handler. run. repeat split.
    + exists []. now rewrite app_nil_r.
    + eexists. split; reflexivity.
Qed.

(** X4.  Registration followed by lookup: the routes registered before keep
    their priority, and an event that none of them matches is answered by
    the new route when its host key is the host and its pattern parses the
    path.  The host key is the given host, or the default host when none
    (or an empty one) is given; the handler is the view function, wrapped by
    [catcher] when [catch_error] is set. *)
Theorem route_then_find_handler (self self' : InterceptedAPI.t)
    (path : string) (host : option string) (d : RouteType)
    (catch_error return_error : bool) (func h : Handler) :
  route path host (Rt d) catch_error return_error func self
    = (self', Normal h) ->
  exists p : Parser,
    Parser_new path = Normal p
    /\ h = (if catch_error then catcher self return_error func else func)
    /\ routes_of self' d
       = routes_of self d ++ [(str_or host (default_host self), p, h)]
    /\ forall (hq : option string) (pq : string) (w : World),
         snd (find_handler self' hq pq (Rt d) w) =
           Normal
             match first_match (routes_of self d) hq pq with
             | Some found => Some found
             | None =>
                 if opt_str_eqb (str_or host (default_host self)) hq then
                   match Parser_parse p pq with
                   | Some res => Some (h, res)
                   | None => None
                   end
                 else None
             end.
Proof.
  rewrite route_atomic. cbv zeta.
  destruct (Parser_new path) as [p|e]; [|discriminate].
  intros H. injection H as <- <-. exists p.
  assert (Hr : routes_of (registered self d
                            (str_or host (default_host self), p,
                             if catch_error then catcher self return_error func
                             else func)) d
               = routes_of self d ++
                 [(str_or host (default_host self), p,
                   if catch_error then catcher self return_error func
                   else func)])
    by (destruct d; reflexivity).
  repeat split; [exact Hr|].
  intros hq pq w. rewrite find_handler_run. cbn [snd].
  rewrite Hr, first_match_app. cbn [first_match].
  destruct (first_match (routes_of self d) hq pq); [reflexivity|].
  destruct (opt_str_eqb _ hq); [|reflexivity].
  destruct (Parser_parse p pq); reflexivity.
Qed.

End RegistryProperties.

(** ** What the hooks read of the interceptor *)

Section HookExtensionality.
Context {C : Collaborators}.

Lemma bind_cong {A B : Type} (m1 m2 : M A) (k1 k2 : A -> M B) (w : World) :
  m1 w = m2 w ->
  (forall (a : A) (w' : World), k1 a w' = k2 a w') ->
  bind m1 k1 w = bind m2 k2 w.
Proof.
  intros Hm Hk. unfold bind. rewrite Hm.
  destruct (m2 w) as [w' [a|e]]; [apply Hk|reflexivity].
Qed.

Lemma get_host_ext (a b : InterceptedAPI.t) (w : World) :
  respect_proxy_headers a = respect_proxy_headers b ->
  get_host a w = get_host b w.
Proof. intros Hr. unfold get_host. now rewrite Hr. Qed.

Lemma remap_host_loop_ext (a b : InterceptedAPI.t) (ow : bool)
    (host : string) (port : Z) (mapping : list (HostSource * string)) :
  respect_proxy_headers a = respect_proxy_headers b ->
  forall w : World,
    remap_host_loop a ow host port mapping w
    = remap_host_loop b ow host port mapping w.
Proof.
  intros Hr. induction mapping as [|[src dest] mapping IH]; intros w;
    cbn [remap_host_loop].
  - reflexivity.
  - destruct (src_matches src host); [|apply IH]. now rewrite Hr.
Qed.

Lemma remap_host_ext (a b : InterceptedAPI.t) (ow : bool) (w : World) :
  respect_proxy_headers a = respect_proxy_headers b ->
  host_mapping a = host_mapping b ->
  remap_host a ow w = remap_host b ow w.
Proof.
  intros Hr Hm. unfold remap_host. rewrite Hm.
  apply bind_cong; [now apply get_host_ext|].
  intros [host port] w'. now apply remap_host_loop_ext.
Qed.

(** Two interceptors with the same configuration whose lookups of a
    direction agree have the same hook of that direction. *)
Lemma hook_ext (a b : InterceptedAPI.t) (d : RouteType) :
  host_mapping a = host_mapping b ->
  blacklist_domain a = blacklist_domain b ->
  passthrough_of a d = passthrough_of b d ->
  respect_proxy_headers a = respect_proxy_headers b ->
  (forall (hq pq : string) (w : World),
     find_handler a (Some hq) pq (Rt d) w
     = find_handler b (Some hq) pq (Rt d) w) ->
  forall w : World, hook a d w = hook b d w.
Proof.
  intros Hm Hb Hp Hr Hf w.
  destruct d; cbn [hook passthrough_of] in *.
  - unfold request.
    apply bind_cong; [reflexivity|]. intros url w0.
    apply bind_cong; [reflexivity|]. intros fl w1.
    destruct (is_True _); [reflexivity|].
    apply bind_cong; [now apply remap_host_ext|]. intros host w2.
    apply bind_cong; [apply Hf|]. intros [[handler params]|] w3;
      [reflexivity|].
    rewrite Hp, Hb.
    apply bind_cong.
    + destruct (negb (request_passthrough b)); [reflexivity|].
      apply bind_cong; [now apply get_host_ext|reflexivity].
    + intros fallback w4. reflexivity.
  - unfold response.
    apply bind_cong; [reflexivity|]. intros url w0.
    apply bind_cong; [reflexivity|]. intros fl w1.
    destruct (is_True _); [reflexivity|].
    apply bind_cong; [now apply get_host_ext|]. intros hp w2.
    apply bind_cong; [apply Hf|]. intros [[handler params]|] w3;
      [reflexivity|].
    rewrite Hp, Hb.
    apply bind_cong.
    + destruct (negb (response_passthrough b)); [reflexivity|].
      apply bind_cong; [now apply get_host_ext|reflexivity].
    + intros fallback w4. reflexivity.
Qed.

Lemma registered_config (self : InterceptedAPI.t) (d : RouteType) (r : Route) :
  host_mapping (registered self d r) = host_mapping self
  /\ blacklist_domain (registered self d r) = blacklist_domain self
  /\ request_passthrough (registered self d r) = request_passthrough self
  /\ response_passthrough (registered self d r) = response_passthrough self
  /\ respect_proxy_headers (registered self d r) = respect_proxy_headers self
  /\ default_host (registered self d r) = default_host self.
Proof. destruct d; repeat split. Qed.

(** X5.  The two directions are independent: registering a route for one
    direction leaves the hook of the other direction as it was, on every
    flow. *)
Theorem route_leaves_other_direction (self self' : InterceptedAPI.t)
    (path : string) (host : option string) (d d' : RouteType)
    (catch_error return_error : bool) (func h : Handler) :
  route path host (Rt d) catch_error return_error func self
    = (self', Normal h) ->
  d' <> d ->
  routes_of self' d' = routes_of self d'
  /\ forall w : World, hook self' d' w = hook self d' w.
Proof.
  rewrite route_atomic. cbv zeta.
  destruct (Parser_new path) as [p|e]; [|discriminate].
  intros H Hd. injection H as <- <-.
  set (r := (str_or host (default_host self), p,
             if catch_error then catcher self return_error func else func)).
  assert (Hroutes : routes_of (registered self d r) d' = routes_of self d')
    by (destruct d, d'; try reflexivity; contradiction).
  split; [exact Hroutes|].
  destruct (registered_config self d r) as (Hm & Hb & Hq & Hs & Hr & _).
  apply hook_ext; auto.
  - destruct d'; assumption.
  - intros hq pq w. now rewrite !find_handler_run, Hroutes.
Qed.

(** X6.  A route registered without a host on an interceptor without a default
    host has the key [None], which no event has: both hooks behave on every
    flow as they did before the registration. *)
Theorem route_without_host_is_dead (self self' : InterceptedAPI.t)
    (path : string) (host : option string) (d : RouteType)
    (catch_error return_error : bool) (func h : Handler) :
  route path host (Rt d) catch_error return_error func self
    = (self', Normal h) ->
  default_host self = None ->
  host = None \/ host = Some "" ->
  (exists p : Parser, routes_of self' d = routes_of self d ++ [(None, p, h)])
  /\ forall (d' : RouteType) (w : World), hook self' d' w = hook self d' w.
Proof.
  rewrite route_atomic. cbv zeta.
  destruct (Parser_new path) as [p|e]; [|discriminate].
  intros H Hdef Hhost. injection H as <- <-.
  assert (Hkey : str_or host (default_host self) = None)
    by (rewrite Hdef; destruct Hhost as [->| ->]; reflexivity).
  rewrite Hkey.
  set (r := (None, p,
             if catch_error then catcher self return_error func else func)).
  assert (Hsame : routes_of (registered self d r) d = routes_of self d ++ [r])
    by (destruct d; reflexivity).
  split; [exists p; exact Hsame|].
  intros d' w.
  destruct (registered_config self d r) as (Hm & Hb & Hq & Hs & Hr & _).
  apply hook_ext; auto.
  - destruct d'; assumption.
  - intros hq pq w0. rewrite !find_handler_run.
    assert (Hroutes : routes_of (registered self d r) d' = routes_of self d'
                      \/ routes_of (registered self d r) d'
                         = routes_of self d' ++ [r])
      by (destruct d, d'; auto).
    destruct Hroutes as [Hx|Hx]; rewrite Hx; [reflexivity|].
    rewrite (first_match_app (routes_of self d') r),
      (lookup_log_app (routes_of self d') r).
    cbn.
    destruct (first_match (routes_of self d') (Some hq) pq);
      rewrite app_nil_r; reflexivity.
Qed.

End HookExtensionality.

(** ** The host resolver *)

Section ResolverProperties.
Context {C : Collaborators}.

(** X7.  With proxy headers trusted, the first call of the resolver takes the
    host from [X-Forwarded-Host] and the port from [X-Forwarded-Port] and
    from nothing else of the request.  It raises KeyError when the host
    header is missing, then KeyError when the port header is missing, then
    ValueError when the port is no integer; in each case the flow is left
    as it was and nothing is memoized. *)
Theorem get_host_from_proxy_headers (self : InterceptedAPI.t) (w : World) :
  respect_proxy_headers self = true ->
  FlowMeta.REQ_HOST (meta w) = None ->
  match Headers_get (Request.headers (req w)) "X-Forwarded-Host",
        Headers_get (Request.headers (req w)) "X-Forwarded-Port" with
  | None, _ =>
      get_host self w = (w, Raise (mkExc KeyError "X-Forwarded-Host"))
  | Some _, None =>
      get_host self w = (w, Raise (mkExc KeyError "X-Forwarded-Port"))
  | Some host, Some p =>
      match int_of_str p with
      | None =>
          exists e, get_host self w = (w, Raise e) /\ exc_class e = ValueError
      | Some port =>
          get_host self w = (memo_host (host, port) w, Normal (host, port))
          /\ FlowMeta.REQ_HOST (meta (memo_host (host, port) w))
             = Some (host, port)
      end
  end.
Proof.
  intros Hr Hc. rewrite (get_host_first self w Hc).
  unfold fresh_host. rewrite Hr.
  destruct (Headers_get _ "X-Forwarded-Host"); [|reflexivity].
  destruct (Headers_get _ "X-Forwarded-Port"); [|reflexivity].
  destruct (int_of_str _); [split; reflexivity|].
  eexists. split; reflexivity.
Qed.

(** X8.  Without proxy headers the resolver does not raise.  The host is the
    host of the authority of [pretty_host]; the port is the port of that
    authority when it has one other than 0, else the default port of the
    scheme when that is known and not 0, else 80: it is never 0. *)
Theorem get_host_from_authority (self : InterceptedAPI.t) (w : World) :
  respect_proxy_headers self = false ->
  FlowMeta.REQ_HOST (meta w) = None ->
  exists (host : string) (port : Z),
    get_host self w = (memo_host (host, port) w, Normal (host, port))
    /\ host = fst (parse_authority (pretty_host (req w)))
    /\ port <> 0%Z
    /\ (forall p, snd (parse_authority (pretty_host (req w))) = Some p ->
                  p <> 0%Z -> port = p)
    /\ (int_or (snd (parse_authority (pretty_host (req w)))) None = None ->
        forall p, default_port (Request.scheme (req w)) = Some p ->
                  p <> 0%Z -> port = p)
    /\ (int_or (snd (parse_authority (pretty_host (req w)))) None = None ->
        int_or (default_port (Request.scheme (req w))) None = None ->
        port = 80%Z).
Proof.
  intros Hr Hc. rewrite (get_host_first self w Hc).
  unfold fresh_host. rewrite Hr.
  destruct (parse_authority (pretty_host (req w))) as [h po]. cbn [fst snd].
  eexists _, _. split; [reflexivity|]. split; [reflexivity|].
  unfold int_or_else, int_or.
  destruct po as [p|]; [destruct (Z.eqb_spec p 0)|];
    (destruct (default_port _) as [q|]; [destruct (Z.eqb_spec q 0)|]);
    repeat split; intros;
    repeat match goal with
           | H : Some _ = Some _ |- _ => injection H as H
           end;
    subst; try discriminate; try congruence; try lia;
    repeat match goal with
           | |- context [(?x =? 0)%Z] => destruct (Z.eqb_spec x 0)
           end;
    try congruence; lia.
Qed.

End ResolverProperties.

(** ** The host remapper *)

Section RemapperProperties.
Context {C : Collaborators}.

Lemma remap_host_loop_no_rule (self : InterceptedAPI.t) (ow : bool)
    (host : string) (port : Z) (mapping : list (HostSource * string))
    (w : World) :
  first_rule mapping host = None ->
  remap_host_loop self ow host port mapping w = (w, Normal host).
Proof.
  induction mapping as [|[src dest] mapping IH]; cbn; [reflexivity|].
  destruct (src_matches src host); [discriminate|exact IH].
Qed.

(** The loop with [overwrite], at the first rule that matches. *)
Lemma remap_host_loop_overwrite (self : InterceptedAPI.t) (host : string)
    (port : Z) (mapping : list (HostSource * string)) (w : World)
    (dest : string) :
  first_rule mapping host = Some dest ->
  remap_host_loop self true host port mapping w =
    if points_at dest port w then
      (logged [remap_record host dest port] w, Normal dest)
    else if respect_proxy_headers self then
      match Headers_get (Request.headers (req w)) "X-Forwarded-Proto" with
      | Some s =>
          (logged [remap_record host dest port]
             (retargeted (Some s) dest port w),
           Normal dest)
      | None => (w, Raise (mkExc KeyError "X-Forwarded-Proto"))
      end
    else
      (logged [remap_record host dest port] (retargeted None dest port w),
       Normal dest).
Proof.
  induction mapping as [|[src dst] mapping IH]; cbn; [discriminate|].
  destruct (src_matches src host); [|exact IH].
  intros H. injection H as ->.
  unfold points_at, req, headers_getitem. run.
  destruct (Request.host _ =? dest)%string; cbn [negb orb andb].
  - destruct (Request.port _ =? port)%Z; cbn [negb].
    + reflexivity.
    + destruct (respect_proxy_headers self); run; [|reflexivity].
      destruct (Headers_get _ _); reflexivity.
  - destruct (respect_proxy_headers self); run; [|reflexivity].
    destruct (Headers_get _ _); reflexivity.
Qed.

(** X9.  When a rule matches and proxy headers are not trusted, [remap_host]
    with [overwrite] returns the destination of the first matching rule and
    leaves the request pointing at it on the resolved port.  If the request
    pointed there already, the request and the server connection are not
    touched; otherwise the server connection is replaced by one to the
    destination and the resolved port, and host and port of the request are
    assigned.  Method, path and scheme of the request, the response, and
    the metadata apart from the memoized host are as before; one debug
    record is logged. *)
Theorem remap_host_rewrites_target (self : InterceptedAPI.t) (w w0 : World)
    (host dest : string) (port : Z) :
  respect_proxy_headers self = false ->
  get_host self w = (w0, Normal (host, port)) ->
  first_rule (host_mapping self) host = Some dest ->
  exists w1 : World,
    remap_host self true w = (w1, Normal dest)
    /\ Request.host (req w1) = dest
    /\ Request.port (req w1) = port
    /\ (if points_at dest port w then conn w1 = conn w /\ req w1 = req w
        else conn w1 = mkServer (Some (dest, port)))
    /\ Request.method (req w1) = Request.method (req w)
    /\ Request.path (req w1) = Request.path (req w)
    /\ Request.scheme (req w1) = Request.scheme (req w)
    /\ resp w1 = resp w
    /\ meta w1 = FlowMeta.set_REQ_HOST (host, port) (meta w)
    /\ log w1 = log w ++ [remap_record host dest port].
Proof.
  intros Hr Hg Hrule.
  pose proof (get_host_run _ _ _ _ Hg) as ->.
  unfold remap_host, bind. rewrite Hg.
  rewrite (remap_host_loop_overwrite _ _ _ _ _ dest Hrule), Hr.
  change (points_at dest port (memo_host (host, port) w))
    with (points_at dest port w).
  destruct (points_at dest port w) eqn:Hp.
  - eexists. split; [reflexivity|].
    unfold points_at in Hp. apply andb_prop in Hp as [Hh Hq].
    apply String.eqb_eq in Hh. apply Z.eqb_eq in Hq.
    repeat split; assumption.
  - eexists. split; [reflexivity|]. repeat split.
Qed.

(** X10.  When no rule of the host mapping matches the resolved host,
    [remap_host] returns that host, with or without [overwrite]: the
    request, the response and the server connection are as before, nothing
    is logged, and the only change is the memoized host. *)
Theorem remap_host_without_rule (self : InterceptedAPI.t) (ow : bool)
    (w w0 : World) (host : string) (port : Z) :
  get_host self w = (w0, Normal (host, port)) ->
  first_rule (host_mapping self) host = None ->
  remap_host self ow w = (w0, Normal host)
  /\ req w0 = req w /\ resp w0 = resp w /\ conn w0 = conn w
  /\ log w0 = log w
  /\ meta w0 = FlowMeta.set_REQ_HOST (host, port) (meta w).
Proof.
  intros Hg Hrule.
  pose proof (get_host_run _ _ _ _ Hg) as ->.
  unfold remap_host, bind. rewrite Hg.
  rewrite (remap_host_loop_no_rule _ _ _ _ _ _ Hrule).
  repeat split.
Qed.

(** X11.  [remap_host] is idempotent on the flow: once it has returned with
    [overwrite], a second call, with or without [overwrite], returns the
    same host and leaves the flow as the first call left it; it only logs
    the debug record of the matching rule again. *)
Theorem remap_host_idempotent (self : InterceptedAPI.t) (w w1 : World)
    (dest : string) (ow : bool) :
  remap_host self true w = (w1, Normal dest) ->
  exists w2 : World,
    remap_host self ow w1 = (w2, Normal dest)
    /\ flow w2 = flow w1
    /\ exists hp : string * Z,
         FlowMeta.REQ_HOST (meta w1) = Some hp
         /\ log w2 = log w1 ++ remap_log self hp.
Proof.
  intros H.
  destruct (remap_host_memo _ _ _ _ _ H) as (hp & _ & Hmeta & _ & _).
  assert (Hhp : FlowMeta.REQ_HOST (meta w1) = Some hp)
    by (rewrite Hmeta; reflexivity).
  pose proof (resolve_host_again self REQUEST w w1 w1 dest hp H Hhp Hhp
                eq_refl eq_refl) as H2.
  cbn [resolve_host resolve_log] in H2.
  destruct ow.
  - eexists. split; [exact H2|]. split; [reflexivity|].
    exists hp. split; [exact Hhp|reflexivity].
  - unfold remap_host, bind in H2 |- *.
    rewrite (get_host_cached self w1 hp Hhp) in H2 |- *.
    destruct hp as [h p]. cbn [fst snd] in *.
    rewrite remap_host_loop_keep.
    pose proof (remap_host_loop_returns _ _ _ _ _ _ _ _ H2) as Hd.
    destruct (first_rule (host_mapping self) h) as [d|] eqn:Hfr; subst dest.
    + eexists. split; [reflexivity|]. split; [reflexivity|].
      exists (h, p). split; [exact Hhp|].
      unfold remap_log. cbn [fst snd]. now rewrite Hfr.
    + exists w1. split; [reflexivity|]. split; [reflexivity|].
      exists (h, p). split; [exact Hhp|].
      unfold remap_log. cbn [fst snd]. now rewrite Hfr, app_nil_r.
Qed.

(** X12.  With proxy headers trusted, a rewrite of the target takes the scheme
    from [X-Forwarded-Proto].  When the header is missing [remap_host]
    raises KeyError before it has rewritten anything: the host is memoized,
    and the request, the server connection and the log are as before.
    When it is there, the scheme of the request becomes its value, and the
    request and the server connection point at the destination. *)
Theorem remap_host_forwarded_proto (self : InterceptedAPI.t) (w w0 : World)
    (host dest : string) (port : Z) :
  respect_proxy_headers self = true ->
  get_host self w = (w0, Normal (host, port)) ->
  first_rule (host_mapping self) host = Some dest ->
  points_at dest port w = false ->
  match Headers_get (Request.headers (req w)) "X-Forwarded-Proto" with
  | None =>
      remap_host self true w
        = (w0, Raise (mkExc KeyError "X-Forwarded-Proto"))
      /\ req w0 = req w /\ conn w0 = conn w /\ log w0 = log w
  | Some s =>
      exists w1 : World,
        remap_host self true w = (w1, Normal dest)
        /\ Request.scheme (req w1) = s
        /\ Request.host (req w1) = dest
        /\ Request.port (req w1) = port
        /\ conn w1 = mkServer (Some (dest, port))
  end.
Proof.
  intros Hr Hg Hrule Hp.
  pose proof (get_host_run _ _ _ _ Hg) as ->.
  unfold remap_host, bind. rewrite Hg.
  rewrite (remap_host_loop_overwrite _ _ _ _ _ dest Hrule), Hr.
  change (points_at dest port (memo_host (host, port) w))
    with (points_at dest port w).
  rewrite Hp.
  change (req (memo_host (host, port) w)) with (req w).
  destruct (Headers_get (Request.headers (req w)) "X-Forwarded-Proto").
  - eexists. split; [reflexivity|]. repeat split.
  - repeat split.
Qed.

End RemapperProperties.

(** ** The hooks *)

Section HookProperties.
Context {C : Collaborators}.

(** Host resolution of a hook on an interceptor without host mapping
    changes the metadata only. *)
Lemma resolve_host_unmapped (self : InterceptedAPI.t) (d : RouteType)
    (w w1 : World) (host : string) :
  host_mapping self = [] ->
  resolve_host self d w = (w1, Normal host) ->
  req w1 = req w /\ resp w1 = resp w /\ conn w1 = conn w /\ log w1 = log w.
Proof.
  intros Hm H. destruct d; cbn [resolve_host] in H.
  - unfold remap_host, bind in H. rewrite Hm in H.
    destruct (get_host self w) as [w0 [[h p]|e]] eqn:Hg; [|discriminate].
    cbn in H. unfold ret in H. injection H as <- _.
    pose proof (get_host_run _ _ _ _ Hg) as ->. repeat split.
  - unfold bind, ret in H.
    destruct (get_host self w) as [w0 [hp|e]] eqn:Hg; [|discriminate].
    injection H as <- _.
    pose proof (get_host_run _ _ _ _ Hg) as ->. repeat split.
Qed.

(** X13.  An interceptor built with the defaults of [__init__] (no host mapping,
    no blacklist, both passthrough settings true) and no route lets every
    event pass: a hook that resolves path and host sets the flag of its
    direction and leaves the request, the response and the server
    connection as they were. *)
Theorem fresh_interceptor_passes_through (default : option string)
    (trust_proxy : bool) (d : RouteType) (w w1 : World) (path host : string) :
  let api := InterceptedAPI.init default None None true true trust_proxy in
  dispatched api d w path host w1 ->
  exists w' : World,
    hook api d w = (w', Normal tt)
    /\ flag_of d (meta w') = Some true
    /\ req w' = req w /\ resp w' = resp w /\ conn w' = conn w.
Proof.
  intros api Hd.
  destruct (dispatched_memo _ _ _ _ _ _ Hd)
    as (hp & u & Hhp & _ & _ & _ & _ & _ & _ & _).
  assert (Hfm : first_match (routes_of api d) (Some host) path = None)
    by (destruct d; reflexivity).
  rewrite (hook_fallback _ _ _ _ _ _ hp Hd Hfm Hhp).
  assert (Hrep : replaces api d (fst hp) = false) by (destruct d; reflexivity).
  rewrite Hrep. eexists. split; [reflexivity|].
  destruct Hd as (w0 & u0 & Hu & _ & _ & Hres & _).
  destruct (cached_urlparse_cached _ _ _ Hu) as [-> _].
  destruct (resolve_host_unmapped api d _ _ _ eq_refl Hres)
    as (Hq & Hr & Hc & _).
  destruct d; (split; [reflexivity|]);
    (split; [exact Hq|split; [exact Hr|exact Hc]]).
Qed.


(** X15.  A route that matches wins over the fallback: the outcome of the hook
    is the outcome of the handler, run on the flow as host resolution left
    it, also when the host is blacklisted or passthrough is off.  The hook
    itself neither substitutes a response nor sets a flag. *)
Theorem matched_route_overrides_fallback (self : InterceptedAPI.t)
    (d : RouteType) (w w1 w2 : World) (path host : string)
    (handler : Handler) (params : parse.Result) (c : Completion unit) :
  dispatched self d w path host w1 ->
  first_match (routes_of self d) (Some host) path = Some (handler, params) ->
  handler (parse.fixed params) (parse.named params)
    (handled_in self d w1 path host) = (w2, c) ->
  hook self d w = (w2, c)
  /\ flow (handled_in self d w1 path host) = flow w1
  /\ (resp w2 = resp (handled_in self d w1 path host) ->
      meta w2 = meta (handled_in self d w1 path host) ->
      resp w2 = resp w /\ flag_of d (meta w2) = flag_of d (meta w)).
Proof.
  intros Hd Hfm Hrun.
  rewrite (hook_handled _ _ _ _ _ _ _ _ Hd Hfm), Hrun.
  destruct (dispatched_memo _ _ _ _ _ _ Hd)
    as (hp & u & _ & _ & _ & Hrq & Hrs & _ & Hresp & _).
  split; [reflexivity|]. split; [reflexivity|].
  intros Hr2 Hm2. split.
  - rewrite Hr2. exact Hresp.
  - rewrite Hm2. destruct d; assumption.
Qed.



(** X19.  An exception of the host resolver goes through the hook: when the path
    is parsed, the flag of the direction is unset and the first resolution
    of the host raises, the hook raises the same exception before any
    lookup.  The flow has got the parsed URL and nothing else: no host is
    memoized, no flag is set, the response is not replaced. *)
Theorem hook_propagates_resolver_error (self : InterceptedAPI.t)
    (d : RouteType) (w w0 : World) (u : urllib.ParseResult) (e : PyExc) :
  cached_urlparse w = (w0, Normal u) ->
  is_True (flag_of d (meta w0)) = false ->
  FlowMeta.REQ_HOST (meta w0) = None ->
  fresh_host self (req w0) = Raise e ->
  hook self d w = (w0, Raise e)
  /\ w0 = memo_url u w
  /\ log w0 = log w.
Proof.
  intros Hu Hf Hc He.
  assert (Hg : get_host self w0 = (w0, Raise e))
    by (now rewrite (get_host_first self w0 Hc), He).
  destruct (cached_urlparse_cached _ _ _ Hu) as [Hw0 _].
  split; [|split; [exact Hw0|now rewrite Hw0]].
  destruct d; cbn [hook flag_of] in *.
  - unfold request, bind at 1. rewrite Hu.
    unfold bind at 1, get_flow at 1. unfold meta in Hf. rewrite Hf.
    unfold bind at 1, remap_host, bind at 1. now rewrite Hg.
  - unfold response, bind at 1. rewrite Hu.
    unfold bind at 1, get_flow at 1. unfold meta in Hf. rewrite Hf.
    unfold bind at 1. now rewrite Hg.
Qed.

End HookProperties.

(** ** Where the exceptions of a hook come from *)

Section HookFailures.
Context {C : Collaborators}.

Lemma get_host_total (self : InterceptedAPI.t) (w : World) :
  respect_proxy_headers self = false ->
  exists hp : string * Z, get_host self w = (memo_host hp w, Normal hp).
Proof.
  intros Hr.
  destruct (get_host self w) as [w0 [hp|e]] eqn:Hg.
  - exists hp. now rewrite (get_host_run _ _ _ _ Hg).
  - exfalso.
    destruct (FlowMeta.REQ_HOST (meta w)) as [hp|] eqn:Hc.
    + rewrite (get_host_cached self w hp Hc) in Hg. discriminate.
    + rewrite (get_host_first self w Hc) in Hg.
      unfold fresh_host in Hg. rewrite Hr in Hg. discriminate.
Qed.

Lemma resolve_host_total (self : InterceptedAPI.t) (d : RouteType) (w : World) :
  respect_proxy_headers self = false ->
  exists (w1 : World) (host : string),
    resolve_host self d w = (w1, Normal host) /\ resp w1 = resp w.
Proof.
  intros Hr. destruct (get_host_total self w Hr) as (hp & Hg).
  destruct d; cbn [resolve_host].
  - unfold remap_host, bind. rewrite Hg. destruct hp as [h p].
    destruct (remap_host_loop self true h p (host_mapping self)
                (memo_host (h, p) w)) as [w1 [host|e]] eqn:Hl.
    + exists w1, host. split; [reflexivity|].
      now destruct (remap_host_loop_meta _ _ _ _ _ _ _ _ Hl).
    + exfalso.
      destruct (first_rule (host_mapping self) h) as [dest|] eqn:Hrule.
      * rewrite (remap_host_loop_overwrite _ _ _ _ _ dest Hrule), Hr in Hl.
        destruct (points_at dest p _); discriminate.
      * rewrite (remap_host_loop_no_rule _ _ _ _ _ _ Hrule) in Hl.
        discriminate.
  - unfold bind, ret. rewrite Hg. eexists _, _. split; reflexivity.
Qed.

(** X20.  A hook adds no failure of its own when proxy headers are not trusted
    and the path of the request parses (and, for the response hook, the
    flow carries a response): it returns normally, or it raises the
    exception that the handler of a registered route of its direction has
    raised, in the world that handler left. *)
Theorem hook_raises_only_from_handler (self : InterceptedAPI.t)
    (d : RouteType) (w : World) :
  respect_proxy_headers self = false ->
  (FlowMeta.REQ_URLPARSE (meta w) = None ->
   exists u, urlparse (Request.path (req w)) = Normal u) ->
  carries_response d w ->
  (exists w' : World, hook self d w = (w', Normal tt))
  \/ (exists (w' : World) (e : PyExc) (r : Route) (args : list string)
             (kwargs : list (string * string)) (w1 : World),
        hook self d w = (w', Raise e)
        /\ In r (routes_of self d)
        /\ route_handler r args kwargs w1 = (w', Raise e)).
Proof.
  intros Hr Hparse Hcr.
  assert (Hu : exists w0 u, cached_urlparse w = (w0, Normal u)
                            /\ w0 = memo_url u w).
  { rewrite cached_urlparse_run.
    destruct (FlowMeta.REQ_URLPARSE (meta w)) as [u|] eqn:Hc.
    - exists w, u. split; [reflexivity|].
      destruct w as [[r s c [a b x h]] l]. cbn in Hc. now subst x.
    - destruct (Hparse eq_refl) as (u & ->). eauto. }
  destruct Hu as (w0 & u & Hu & Hw0).
  assert (Hcr0 : carries_response d w0) by (subst w0; destruct d; exact Hcr).
  destruct (is_True (flag_of d (meta w0))) eqn:Hf.
  - left. destruct d; cbn [hook flag_of carries_response] in *.
    + unfold request, bind at 1. rewrite Hu.
      unfold bind at 1, get_flow at 1. unfold meta in Hf. rewrite Hf.
      eexists. reflexivity.
    + unfold response, bind at 1. rewrite Hu.
      unfold bind at 1, get_flow at 1. unfold meta in Hf. rewrite Hf.
      unfold response_status_code. run. unfold resp in Hcr0.
      destruct (HTTPFlow.response (flow w0)); [|contradiction].
      eexists. reflexivity.
  - destruct (resolve_host_total self d w0 Hr) as (w1 & host & Hres & Hresp).
    assert (Hd : dispatched self d w (urllib.path u) host w1).
    { exists w0, u. repeat split; auto.
      destruct d; [exact I|]. cbn in *. now rewrite Hresp. }
    rewrite (hook_dispatched _ _ _ _ _ _ Hd).
    destruct (dispatched_memo _ _ _ _ _ _ Hd) as (hp & _ & Hhp & _).
    rewrite Hhp.
    destruct (first_match (routes_of self d) (Some host) (urllib.path u))
      as [[handler params]|] eqn:Hfm.
    + destruct (first_match_sound _ _ _ _ _ Hfm)
        as (pre & r & post & Hroutes & Hh & _).
      destruct (handler (parse.fixed params) (parse.named params)
                  (handled_in self d w1 (urllib.path u) host))
        as [w2 [[]|e]] eqn:Hrun.
      * left. eauto.
      * right. exists w2, e, r, (parse.fixed params), (parse.named params),
          (handled_in self d w1 (urllib.path u) host).
        split; [reflexivity|]. split.
        -- rewrite Hroutes. apply in_or_app. right. left. reflexivity.
        -- now rewrite Hh.
    + left. destruct (replaces self d (fst hp)); eauto.
Qed.

End HookFailures.

(** ** Instances of the further properties *)

Module Instances.
Import Examples Scenario Fixtures.

Ltac reach_lookup :=
  eexists _, _; repeat split; try reflexivity; try discriminate.

Lemma find_handler_sound_witness :
  exists (pre : list (@Route plain)) (r : @Route plain)
         (post : list (@Route plain)),
    routes_of (C := plain) overlapping REQUEST = pre ++ r :: post
    /\ route_handler (C := plain) r = tag "X-R0"
    /\ route_host (C := plain) r = Some "httpbin.org"
    /\ PatternMatcher.match_ (route_parser (C := plain) r) "/x/1"
       = Some (parse.mkResult [] [("a", "1")])
    /\ forall r0, In r0 pre ->
         route_matches (C := plain) r0 (Some "httpbin.org") "/x/1" = false.
Proof.
  exact (find_handler_sound (C := plain) overlapping REQUEST
           (Some "httpbin.org") "/x/1" (world_of (get "/x/1" "httpbin.org"))
           (logged [mkLog DEBUG "Parse %s => %s" [LStr "/x/1"; LObj]]
              (world_of (get "/x/1" "httpbin.org")))
           (tag "X-R0") (parse.mkResult [] [("a", "1")]) eq_refl).
Defined.

Lemma route_then_find_handler_witness :
  exists p : PatternMatcher.CompiledPattern,
    PatternMatcher.compile "/user/{id}" = Normal p
    /\ routes_of (C := plain)
         (decorated "/user/{id}" REQUEST false false (tag "X-User")) REQUEST
       = [] ++ [(Some "httpbin.org", p, tag "X-User")].
Proof.
  destruct (route_then_find_handler (C := plain) (bare true [])
              (decorated "/user/{id}" REQUEST false false (tag "X-User"))
              "/user/{id}" None REQUEST false false (tag "X-User")
              (tag "X-User") eq_refl)
    as (p & Hp & _ & Hroutes & _).
  exists p. split; [exact Hp|exact Hroutes].
Defined.

Lemma route_leaves_other_direction_witness :
  routes_of (C := plain)
    (decorated "/get" REQUEST true false (tag "X-Seen")) RESPONSE
  = routes_of (C := plain) (bare true []) RESPONSE.
Proof.
  refine (proj1 (route_leaves_other_direction (C := plain) (bare true [])
                   (decorated "/get" REQUEST true false (tag "X-Seen"))
                   "/get" None REQUEST RESPONSE true false (tag "X-Seen")
                   (catcher (C := plain) (bare true []) false (tag "X-Seen"))
                   eq_refl _)).
  discriminate.
Defined.

Lemma route_without_host_is_dead_witness :
  hook (C := plain)
    (fst (route (C := plain) "/get" None (Rt REQUEST) false false
            (tag "X-Seen") hostless))
    REQUEST (world_of (get "/get" "httpbin.org"))
  = hook (C := plain) hostless REQUEST (world_of (get "/get" "httpbin.org")).
Proof.
  exact (proj2 (route_without_host_is_dead (C := plain) hostless
                  (fst (route (C := plain) "/get" None (Rt REQUEST) false false
                          (tag "X-Seen") hostless))
                  "/get" None REQUEST false false (tag "X-Seen")
                  (tag "X-Seen") eq_refl eq_refl (or_introl eq_refl))
           REQUEST (world_of (get "/get" "httpbin.org"))).
Defined.

Lemma get_host_from_proxy_headers_witness :
  get_host (C := plain) proxied
    (world_of (forwarded [("X-Forwarded-Host", "example.org");
                          ("X-Forwarded-Port", "8443")]))
  = (memo_host ("example.org", 8443%Z)
       (world_of (forwarded [("X-Forwarded-Host", "example.org");
                             ("X-Forwarded-Port", "8443")])),
     Normal ("example.org", 8443%Z)).
Proof.
  exact (proj1 (get_host_from_proxy_headers (C := plain) proxied
                  (world_of (forwarded [("X-Forwarded-Host", "example.org");
                                        ("X-Forwarded-Port", "8443")]))
                  eq_refl eq_refl)).
Defined.

Lemma get_host_from_authority_witness :
  exists (host : string) (port : Z),
    get_host (C := plain) (bare true [])
      (world_of (get "/" "example.org"))
    = (memo_host (host, port) (world_of (get "/" "example.org")),
       Normal (host, port))
    /\ host = "example.org"
    /\ port <> 0%Z.
Proof.
  destruct (get_host_from_authority (C := plain) (bare true [])
              (world_of (get "/" "example.org")) eq_refl eq_refl)
    as (h & p & H1 & H2 & H3 & _).
  exists h, p. split; [exact H1|]. split; [exact H2|exact H3].
Defined.

Lemma remap_host_rewrites_target_witness :
  exists w1 : World,
    remap_host (C := plain) (remapping [] []) true
      (world_of (get "/" "evil.example")) = (w1, Normal "safe.example")
    /\ Request.host (req w1) = "safe.example"
    /\ Request.port (req w1) = 80%Z
    /\ conn w1 = mkServer (Some ("safe.example", 80%Z)).
Proof.
  destruct (remap_host_rewrites_target (C := plain) (remapping [] [])
              (world_of (get "/" "evil.example"))
              (memo_host ("evil.example", 80%Z)
                 (world_of (get "/" "evil.example")))
              "evil.example" "safe.example" 80%Z eq_refl eq_refl eq_refl)
    as (w1 & H1 & H2 & H3 & H4 & _).
  exists w1. split; [exact H1|]. split; [exact H2|]. split; [exact H3|exact H4].
Defined.

Lemma remap_host_without_rule_witness :
  remap_host (C := plain) (remapping [] []) true
    (world_of (get "/" "example.org"))
  = (memo_host ("example.org", 80%Z) (world_of (get "/" "example.org")),
     Normal "example.org").
Proof.
  exact (proj1 (remap_host_without_rule (C := plain) (remapping [] []) true
                  (world_of (get "/" "example.org"))
                  (memo_host ("example.org", 80%Z)
                     (world_of (get "/" "example.org")))
                  "example.org" 80%Z eq_refl eq_refl)).
Defined.

Lemma remap_host_idempotent_witness :
  exists w2 : World,
    remap_host (C := plain) (remapping [] []) true
      (fst (remap_host (C := plain) (remapping [] []) true
              (world_of (get "/" "evil.example"))))
    = (w2, Normal "safe.example")
    /\ flow w2
       = flow (fst (remap_host (C := plain) (remapping [] []) true
                      (world_of (get "/" "evil.example")))).
Proof.
  destruct (remap_host_idempotent (C := plain) (remapping [] [])
              (world_of (get "/" "evil.example"))
              (fst (remap_host (C := plain) (remapping [] []) true
                      (world_of (get "/" "evil.example"))))
              "safe.example" true eq_refl)
    as (w2 & H1 & H2 & _).
  exists w2. split; [exact H1|exact H2].
Defined.

(** The proxy names the host and the port but not the scheme: the remapper
    raises, and the request still points at the proxy's own target. *)
Lemma remap_host_forwarded_proto_witness :
  remap_host (C := plain) proxied true
    (world_of (forwarded [("X-Forwarded-Host", "evil.example");
                          ("X-Forwarded-Port", "443")]))
  = (memo_host ("evil.example", 443%Z)
       (world_of (forwarded [("X-Forwarded-Host", "evil.example");
                             ("X-Forwarded-Port", "443")])),
     Raise (mkExc KeyError "X-Forwarded-Proto")).
Proof.
  exact (proj1 (remap_host_forwarded_proto (C := plain) proxied
                  (world_of (forwarded [("X-Forwarded-Host", "evil.example");
                                        ("X-Forwarded-Port", "443")]))
                  (memo_host ("evil.example", 443%Z)
                     (world_of (forwarded
                                  [("X-Forwarded-Host", "evil.example");
                                   ("X-Forwarded-Port", "443")])))
                  "evil.example" "safe.example" 443%Z
                  eq_refl eq_refl eq_refl eq_refl)).
Defined.

Lemma fresh_interceptor_passes_through_witness :
  exists w' : World,
    hook (C := plain)
      (InterceptedAPI.init (C := plain) (Some "httpbin.org") None None
         true true false)
      REQUEST (world_of (get "/anything" "evil.example"))
    = (w', Normal tt)
    /\ flag_of REQUEST (meta w') = Some true
    /\ req w' = get "/anything" "evil.example"
    /\ resp w' = None.
Proof.
  destruct (fresh_interceptor_passes_through (C := plain)
              (Some "httpbin.org") false REQUEST
              (world_of (get "/anything" "evil.example"))
              (memo_host ("evil.example", 80%Z)
                 (memo_url (urllib.mkParseResult "" "" "/anything" "" "" "")
                    (world_of (get "/anything" "evil.example"))))
              "/anything" "evil.example" ltac:(reach_lookup))
    as (w' & H1 & H2 & H3 & H4 & _).
  exists w'. split; [exact H1|]. split; [exact H2|].
  split; [exact H3|exact H4].
Defined.


(** The host is blacklisted and passthrough is off, but a route matches:
    the handler runs and no default response is substituted. *)
Lemma matched_route_overrides_fallback_witness :
  str_in "httpbin.org" (blacklist_domain strict) = true
  /\ request_passthrough strict = false
  /\ exists w2 : World,
       hook (C := plain) strict REQUEST (world_of (get "/get" "httpbin.org"))
       = (w2, Normal tt)
       /\ resp w2 = None
       /\ Request.headers (req w2) = [("X-Seen", "")].
Proof.
  split; [reflexivity|]. split; [reflexivity|].
  eexists. split.
  - apply (matched_route_overrides_fallback (C := plain) strict REQUEST
             (world_of (get "/get" "httpbin.org"))
             (memo_host ("httpbin.org", 80%Z)
                (memo_url (urllib.mkParseResult "" "" "/get" "" "" "")
                   (world_of (get "/get" "httpbin.org"))))
             _ "/get" "httpbin.org" (tag "X-Seen") (parse.mkResult [] [])
             (Normal tt) ltac:(reach_lookup) eq_refl eq_refl).
  - split; reflexivity.
Defined.

(** A proxied interceptor gets a response event without proxy headers: the
    response hook raises the KeyError of the resolver. *)
Lemma hook_propagates_resolver_error_witness :
  hook (C := plain) proxied RESPONSE (answered (forwarded []))
  = (memo_url (urllib.mkParseResult "" "" "/" "" "" "")
       (answered (forwarded [])),
     Raise (mkExc KeyError "X-Forwarded-Host")).
Proof.
  exact (proj1 (hook_propagates_resolver_error (C := plain) proxied RESPONSE
                  (answered (forwarded []))
                  (memo_url (urllib.mkParseResult "" "" "/" "" "" "")
                     (answered (forwarded [])))
                  (urllib.mkParseResult "" "" "/" "" "" "")
                  (mkExc KeyError "X-Forwarded-Host")
                  eq_refl eq_refl eq_refl eq_refl)).
Defined.

(** A view function registered without [catch_error] raises after it has
    tagged the request: the exception identifies the failing route. *)
Lemma hook_raises_only_from_handler_witness :
  (exists w' : World,
     hook (C := plain) (decorated "/boom" REQUEST false false (failing "boom"))
       REQUEST (world_of (get "/boom" "httpbin.org")) = (w', Normal tt))
  \/ (exists (w' : World) (e : PyExc) (r : @Route plain)
             (args : list string) (kwargs : list (string * string))
             (w1 : World),
        hook (C := plain)
          (decorated "/boom" REQUEST false false (failing "boom"))
          REQUEST (world_of (get "/boom" "httpbin.org")) = (w', Raise e)
        /\ In r (routes_of (C := plain)
                   (decorated "/boom" REQUEST false false (failing "boom"))
                   REQUEST)
        /\ route_handler (C := plain) r args kwargs w1 = (w', Raise e)).
Proof.
  exact (hook_raises_only_from_handler (C := plain)
           (decorated "/boom" REQUEST false false (failing "boom")) REQUEST
           (world_of (get "/boom" "httpbin.org")) eq_refl
           (fun _ => ex_intro _ _ eq_refl) I).
Defined.


(** A request that passes through is skipped by a second call of the
    request hook. *)
Lemma passthrough_decision_is_final_witness :
  exists w' : World,
    hook (C := plain) (bare true []) REQUEST
      (world_of (get "/anything" "evil.example")) = (w', Normal tt)
    /\ flag_of REQUEST (meta w') = Some true
    /\ hook (C := plain) (bare true []) REQUEST w'
       = (skipped REQUEST w' "/anything", Normal tt).
Proof.
  eexists.
  exact (passthrough_decision_is_final (C := plain) (bare true []) REQUEST
           (world_of (get "/anything" "evil.example"))
           (memo_host ("evil.example", 80%Z)
              (memo_url (urllib.mkParseResult "" "" "/anything" "" "" "")
                 (world_of (get "/anything" "evil.example"))))
           "/anything" "evil.example" ("evil.example", 80%Z)
           ltac:(reach_lookup) eq_refl eq_refl eq_refl).
Defined.

End Instances.
